(** * HiTrade front end (min-trade-frontend/src/App.tsx)

    A shallow embedding of the client-side logic of [App.tsx]: the fund
    presentation components ([BrainProfile], [PerformanceStrip], [FundCard]),
    the portfolio wizard ([PortfolioWizard] with [handlePresetSelect] and
    [handleSubmit]), the result view ([PortfolioResults]) and the data
    fetching of [App] ([fetchData], [fetchRankedFunds] and the effect that
    triggers it).

    Conventions of the embedding:
    - a JSON number is an exact rational ([number := Q]); values decoded by
      [response.json()] are never NaN, and the rounding of [toFixed] and
      [toLocaleString] is not modelled: a displayed number is carried as its
      value;
    - [T | null] is [option T]; an optional [T | null | undefined] field is
      [option T] as well, since the source only tests it with [!= null];
    - a component is a function from its props (and the view mode it reads
      from [ViewModeContext]) to the elements it renders, in document order;
      class names are kept only where they carry the rank highlight;
    - an [async] function is a computation in a small state-and-exception
      monad; what the network answers is an argument of the computation. *)

From Stdlib Require Import ZArith QArith Qminmax Lia Lqa Bool Ascii.
From stdpp Require Import base list strings.

Local Open Scope string_scope.
Local Open Scope Z_scope.
Local Open Scope list_scope.

(** ** JavaScript values *)

Module Js.

(** A finite JSON number. *)
Definition number : Type := Q.

(** The result of [parseFloat]: a finite value, an infinity or NaN. *)
Inductive float : Type :=
  | NaN
  | Infinity (negative : bool)
  | Finite (q : number).

(** Truthiness of a [number | null]: [null] and [0] are falsy. *)
Definition truthy_number (v : option number) : bool :=
    match v with
    | None => false
    | Some q => negb (Qeq_bool q 0)
    end.

(** Truthiness of a [string | null]: [null] and the empty string are falsy. *)
Definition truthy_string (v : option string) : bool :=
    match v with
    | None => false
    | Some s => negb (String.eqb s "")
    end.

(** [Math.min] and [Math.max] on finite numbers. *)
Definition Math_min (a b : number) : number := Qmin a b.
Definition Math_max (a b : number) : number := Qmax a b.

(** *** [parseFloat] (ECMA-262, StrDecimalLiteral on the trimmed prefix)

    The value computed is the exact decimal value of the literal read. The
    source's [parseFloat] rounds that value to the nearest binary64 number
    (and overflows to an infinity), so the two agree exactly where the
    decimal value is itself a binary64 number, as every integer of
    magnitude up to 2^53 is. *)

Definition is_digit (c : ascii) : bool :=
    let n := nat_of_ascii c in (48 <=? n)%nat && (n <=? 57)%nat.

Definition digit_value (c : ascii) : Z := Z.of_nat (nat_of_ascii c) - 48.

Definition is_white_space (c : ascii) : bool :=
    let n := nat_of_ascii c in
    ((9 <=? n)%nat && (n <=? 13)%nat) || (n =? 32)%nat.

Fixpoint skip_white_space (s : list ascii) : list ascii :=
    match s with
    | c :: r => if is_white_space c then skip_white_space r else s
    | [] => []
    end.

Fixpoint span_digits (s : list ascii) : list ascii * list ascii :=
    match s with
    | c :: r =>
        if is_digit c then let '(ds, rest) := span_digits r in (c :: ds, rest)
        else ([], s)
    | [] => ([], [])
    end.

Definition digits_value (ds : list ascii) : Z :=
    fold_left (fun acc c => 10 * acc + digit_value c) ds 0.

Definition read_sign (s : list ascii) : bool * list ascii :=
    match s with
    | "+"%char :: r => (false, r)
    | "-"%char :: r => (true, r)
    | _ => (false, s)
    end.

Fixpoint starts_with (p s : list ascii) : bool :=
    match p, s with
    | [], _ => true
    | a :: p', b :: s' => Ascii.eqb a b && starts_with p' s'
    | _ :: _, [] => false
    end.

(** The exponent part is taken only when at least one digit follows. *)
Definition read_exponent (s : list ascii) : Z :=
    match s with
    | c :: r =>
        if Ascii.eqb c "e" || Ascii.eqb c "E" then
          let '(neg, r') := read_sign r in
          let '(ds, _) := span_digits r' in
          match ds with
          | [] => 0
          | _ => if neg then - digits_value ds else digits_value ds
          end
        else 0
    | [] => 0
    end.

(** [m * 10^k] as a reduced rational. *)
Definition scale10 (m k : Z) : number :=
    if 0 <=? k then inject_Z (m * 10 ^ k)
    else Qred (Qmake m (Z.to_pos (10 ^ (- k)))).

Definition parseFloat (input : string) : float :=
    let s := skip_white_space (String.list_ascii_of_string input) in
    let '(neg, s1) := read_sign s in
    if starts_with (String.list_ascii_of_string "Infinity") s1 then Infinity neg
    else
      let '(ip, r1) := span_digits s1 in
      let '(fp, r2) :=
        match r1 with
        | "."%char :: r => span_digits r
        | _ => ([], r1)
        end in
      match ip, fp with
      | [], [] => NaN
      | _, _ =>
          let m := digits_value (ip ++ fp) in
          let k := read_exponent r2 - Z.of_nat (length fp) in
          Finite (scale10 (if neg then - m else m) k)
      end.

(** [JSON.stringify] of a number: NaN and the infinities become [null]. *)
Definition json_number (x : float) : option number :=
    match x with
    | Finite q => Some q
    | _ => None
    end.

End Js.

Import Js.

(** ** Data model (the interfaces of App.tsx) *)

Inductive ViewMode : Type := simple | advanced.

Definition ViewMode_eqb (a b : ViewMode) : bool :=
  match a, b with
  | simple, simple | advanced, advanced => true
  | _, _ => false
  end.

Record FundMetrics : Type := {
  perf_1w : option number;
  perf_1m : option number;
  perf_3m : option number;
  perf_1y : option number;
  perf_3y : option number;
  vol_60d : option number;
  sharpe_ratio : option number;
  sortino_ratio : option number;
  max_drawdown : option number
}.

Inductive Priority : Type := high | medium | low.

Record Fund : Type := {
  isin : string;
  name : string;
  management_company : option string;
  sri : Z;
  asset_class : string;
  description : option string;
  available_platforms : list string;
  is_standard_isin : bool;
  label : option string;
  metrics : option FundMetrics;
  fundamental_score : option number;
  top_week_score : option number;
  priority : option Priority;
  confidence : option number;
  reasoning : option string;
  quality_score : option number;
  valuation_score : option number;
  stability_score : option number;
  consensus_level : option string
}.

Record FundAllocation : Type := {
  fund : Fund;
  allocation_percent : number;
  amount_eur : number
}.

(** A [Record<string, number>] is kept as the sequence of its entries, in the
    order [Object.entries] enumerates them. *)
Definition NumberRecord : Type := list (string * number).

Definition Object_keys (o : NumberRecord) : list string := map fst o.
Definition Object_entries (o : NumberRecord) : list (string * number) := o.

Record PortfolioSuggestion : Type := {
  allocations : list FundAllocation;
  total_amount : number;
  average_sri : number;
  num_funds : number;
  asset_class_distribution : NumberRecord;
  explanation : string;
  average_confidence : option number;
  consensus_summary : option string
}.

Record Stats : Type := {
  total_funds : number;
  standard_isin_funds : number;
  special_funds : number;
  sri_distribution : NumberRecord;
  st_asset_class_distribution : NumberRecord
}.

(** ** Rendered elements

    What a component returns: its children in document order. The badge
    components [SRIBadge], [AssetClassBadge] and [PriorityBadge] only style
    their prop, so an occurrence is recorded with that prop. *)

Inductive BarBody : Type :=
| BarNumeric (width : number) (shown : number)
| BarNA.

Record BarRow : Type := {
  row_label : string;
  row_body : BarBody;
  row_detail : option string
}.

Inductive ProfileView : Type :=
| ProfileMarker (text : string)
| ProfileBars (rows : list BarRow).

Inductive PerfSlot : Type :=
| SlotValue (slot_label : string) (v : number)
| SlotNA (slot_label : string).

Inductive PerfView : Type :=
| PerfMarker (text : string)
| PerfSlots (slots : list PerfSlot).

Inductive Detail : Type :=
| MetricsGrid (sharpe sortino max_dd : option number)
| ConfidenceBar (c : number)
| ReasoningText (s : string)
| CompanyText (s : string).

Inductive Element : Type :=
| RankSpan (rank : Z) (classes : list string)
| TextNode (s : string)
| NameText (s : string)
| IsinText (s : string)
| GlobalScore (score : option number) (colour : string)
| SRIBadge (sri : Z)
| AssetClassBadge (assetClass : string)
| PriorityBadge (p : Priority)
| Profile (v : ProfileView)
| Performance (v : PerfView)
| ConfidenceLine (c : number)
| Details (ds : list Detail)
| DetailsToggle (expanded : bool)
| AllocationPercent (pct : number)
| AmountEur (amt : number)
| ScoreBadge (score : number)
| ConfBadge (c : number).

Record CardView : Type := {
  className : string;
  content : list Element
}.

(** [{cond && <X/>}]: the element when the condition holds, nothing else
    (React renders [false], [null] and [undefined] as nothing). *)
Definition when {A : Type} (cond : bool) (x : A) : list A :=
  if cond then [x] else [].

Definition is_null {A : Type} (v : option A) : bool :=
  match v with
  | None => true
  | Some _ => false
  end.

(** ** BrainProfile *)

Record Bar : Type := {
  bar_label : string;
  bar_value : option number;
  bar_detail : string
}.

Definition bars (quality valuation stability : option number) : list Bar :=
  [ {| bar_label := "Gestion"; bar_value := quality;
       bar_detail := "Sharpe, Sortino, frais" |};
    {| bar_label := "Valo"; bar_value := valuation;
       bar_detail := "PE vs benchmark" |};
    {| bar_label := "Stabilite"; bar_value := stability;
       bar_detail := "Max drawdown" |} ].

Definition render_bar (viewMode : ViewMode) (showDetails : bool) (bar : Bar)
  : BarRow :=
  {| row_label := bar_label bar;
     row_body :=
       match bar_value bar with
       | Some v => BarNumeric (Math_min 100%Q (Math_max 0%Q v)) v
       | None => BarNA
       end;
     row_detail :=
       if negb (is_null (bar_value bar))
          && (showDetails || ViewMode_eqb viewMode advanced)
       then Some (bar_detail bar) else None |}.

Definition BrainProfile (viewMode : ViewMode)
    (quality valuation stability : option number) (showDetails : bool)
  : ProfileView :=
  let allNull := is_null quality && is_null valuation && is_null stability in
  if allNull then ProfileMarker "Donnees indisponibles (provider)"
  else ProfileBars (map (render_bar viewMode showDetails)
                        (bars quality valuation stability)).

(** ** PerformanceStrip *)

Definition perf_items (viewMode : ViewMode) (m : FundMetrics)
  : list (string * option number) :=
  match viewMode with
  | simple => [ ("1M", perf_1m m); ("1A", perf_1y m) ]
  | advanced => [ ("1S", perf_1w m); ("1M", perf_1m m);
                  ("1A", perf_1y m); ("3A", perf_3y m) ]
  end.

Definition render_slot (item : string * option number) : PerfSlot :=
  match item.2 with
  | Some v => SlotValue item.1 v
  | None => SlotNA item.1
  end.

Definition PerformanceStrip (viewMode : ViewMode) (metrics : option FundMetrics)
  : PerfView :=
  match metrics with
  | None => PerfMarker "Performances indisponibles"
  | Some m =>
      let items := perf_items viewMode m in
      let hasAnyPerf := existsb (fun item => negb (is_null item.2)) items in
      if negb hasAnyPerf then PerfMarker "Performances indisponibles"
      else PerfSlots (map render_slot items
                      ++ when (ViewMode_eqb viewMode advanced)
                              (render_slot ("Vol", vol_60d m)))
  end.

(** ** FundCard *)

Section FundCard.

(** [rank?: number]: [None] is an omitted prop. *)
Variable rank : option Z.

Definition isTopRank : bool :=
    match rank with
    | Some r => negb (r =? 0) && (r <=? 3)
    | None => false
    end.

Definition isTop1 : bool := bool_decide (rank = Some 1).
Definition isTop2 : bool := bool_decide (rank = Some 2).
Definition isTop3 : bool := bool_decide (rank = Some 3).

Definition topRankStyles : string :=
    if isTop1
    then "ring-2 ring-amber-400/70 shadow-xl shadow-amber-500/30 border-amber-500/50"
    else if isTop2
    then "ring-2 ring-sky-400/60 shadow-lg shadow-sky-500/25 border-sky-500/50"
    else if isTop3
    then "ring-1 ring-violet-400/50 shadow-lg shadow-violet-500/20 border-violet-500/50"
    else "".

Definition cardClass : string :=
    if isTopRank then topRankStyles
    else "hover:shadow-lg hover:shadow-sky-500/5".

Definition rankSpanClasses : list string :=
    [ if isTop1 then "bg-gradient-to-r from-amber-500 to-yellow-400 text-gray-900 shadow-lg shadow-amber-500/40" else "";
      if isTop2 then "bg-gradient-to-r from-sky-500 to-cyan-400 text-gray-900 shadow-md shadow-sky-500/30" else "";
      if isTop3 then "bg-gradient-to-r from-violet-500 to-purple-400 text-white shadow-md shadow-violet-500/30" else "";
      if negb isTopRank then "bg-gray-700 text-gray-300" else "" ].

Definition scoreColour : string :=
    if isTop1 then "text-amber-400 drop-shadow-[0_0_8px_rgba(251,191,36,0.5)]"
    else if isTop2 then "text-sky-400 drop-shadow-[0_0_6px_rgba(56,189,248,0.4)]"
    else if isTop3 then "text-violet-400 drop-shadow-[0_0_6px_rgba(167,139,250,0.4)]"
    else "text-sky-400".

(** [{rank && <span>#{rank}</span>}]: an omitted rank renders nothing, the
      number [0] renders as the text "0". *)
Definition rankSpan : list Element :=
    match rank with
    | None => []
    | Some r => if r =? 0 then [TextNode "0"] else [RankSpan r rankSpanClasses]
    end.

Definition details (f : Fund) : list Detail :=
    match metrics f with
    | Some m => [MetricsGrid (sharpe_ratio m) (sortino_ratio m) (max_drawdown m)]
    | None => []
    end
    ++ match confidence f with
       | Some c => [ConfidenceBar c]
       | None => []
       end
    ++ match reasoning f with
       | Some s => when (truthy_string (Some s)) (ReasoningText s)
       | None => []
       end
    ++ match management_company f with
       | Some s => when (truthy_string (Some s)) (CompanyText s)
       | None => []
       end.

(** [expanded] is the component's own state ([useState(false)]). *)
Definition FundCard (viewMode : ViewMode) (expanded : bool) (f : Fund)
    : CardView :=
    {| className := cardClass;
       content :=
         rankSpan
         ++ [ NameText (name f); IsinText (isin f);
              GlobalScore (fundamental_score f)
                          (if is_null (fundamental_score f) then ""
                           else scoreColour);
              SRIBadge (sri f); AssetClassBadge (asset_class f) ]
         ++ match priority f with
            | Some p => [PriorityBadge p]
            | None => []
            end
         ++ [ Profile (BrainProfile viewMode (quality_score f)
                         (valuation_score f) (stability_score f) false);
              Performance (PerformanceStrip viewMode (metrics f)) ]
         ++ match confidence f with
            | Some c => when (ViewMode_eqb viewMode simple) (ConfidenceLine c)
            | None => []
            end
         ++ when (ViewMode_eqb viewMode advanced || expanded)
                 (Details (details f))
         ++ when (ViewMode_eqb viewMode simple) (DetailsToggle expanded) |}.

End FundCard.

(** The spec's names for the three highlight styles of [topRankStyles]. *)
Inductive Tier : Type := gold | silver | bronze | none.

Definition tier_of_styles (styles : string) : Tier :=
  if String.eqb styles (topRankStyles (Some 1)) then gold
  else if String.eqb styles (topRankStyles (Some 2)) then silver
  else if String.eqb styles (topRankStyles (Some 3)) then bronze
  else none.

Definition highlight_tier (rank : option Z) : Tier :=
  tier_of_styles (topRankStyles rank).

(** ** Requests, responses and application state *)

(** The body of the suggestion request, after [JSON.stringify]: a non-finite
    [amount] is serialised as [null], and an [undefined] [target_sri] (an
    empty slider array) drops the key. *)
Record SuggestBody : Type := {
  body_amount : option number;
  body_horizon : string;
  body_target_sri : option Z;
  body_sri_tolerance : Z
}.

(** A request; [url] is the path below [API_URL]. *)
Record Request : Type := {
  url : string;
  method : string;
  body : option SuggestBody
}.

Definition GET (path : string) : Request :=
  {| url := path; method := "GET"; body := None |}.

(** A response: its [ok] flag and what [json()] decodes, [None] when
    decoding rejects. *)
Record Response (A : Type) : Type := {
  ok : bool;
  json_value : option A
}.
Arguments ok {A} _.
Arguments json_value {A} _.

(** How a [fetch] promise settles. *)
Inductive FetchResult (A : Type) : Type :=
| Rejected
| Resolved (r : Response A).
Arguments Rejected {A}.
Arguments Resolved {A} r.

Record WizardState : Type := {
  step : Z;
  amount : string;
  horizon : string;
  targetSri : list Z;
  wiz_loading : bool;
  error : option string;
  selectedPreset : option string
}.

Record AppState : Type := {
  topFunds : list Fund;
  stats : option Stats;
  loading : bool;
  mobileMenuOpen : bool;
  wizardOpen : bool;
  portfolio : option PortfolioSuggestion;
  activeTab : string;
  rankedFunds : list Fund;
  viewMode : ViewMode
}.

(** The state the handlers act on. [requests] is the log of every request
    issued; [pending] holds the requests whose promise has not settled. *)
Record World : Type := {
  app : AppState;
  wiz : WizardState;
  requests : list Request;
  pending : list Request
}.

(** ** Handlers as computations: state and exceptions *)

Inductive Outcome (A : Type) : Type :=
| Returned (a : A)
| Thrown.
Arguments Returned {A} a.
Arguments Thrown {A}.

Definition Eff (A : Type) : Type := World -> Outcome A * World.

#[global] Instance Eff_ret : MRet Eff := fun A a w => (Returned a, w).

#[global] Instance Eff_bind : MBind Eff := fun A B f c w =>
  match c w with
  | (Returned a, w') => f a w'
  | (Thrown, w') => (Thrown, w')
  end.

Definition throw {A : Type} : Eff A := fun w => (Thrown, w).

Definition gets {A : Type} (f : World -> A) : Eff A :=
  fun w => (Returned (f w), w).

Definition modify (f : World -> World) : Eff unit :=
  fun w => (Returned tt, f w).

(** [try { body } catch { handler } finally { finalizer }] *)
Definition try_catch_finally (body handler finalizer : Eff unit) : Eff unit :=
  fun w =>
    let '(r, w1) :=
      match body w with
      | (Returned _, w') => (Returned tt, w')
      | (Thrown, w') => handler w'
      end in
    match finalizer w1 with
    | (Returned _, w2) => (r, w2)
    | (Thrown, w2) => (Thrown, w2)
    end.

Definition try_catch (body handler : Eff unit) : Eff unit :=
  try_catch_finally body handler (mret tt).

Definition exec (c : Eff unit) (w : World) : World := (c w).2.

Fixpoint remove_first (path : string) (l : list Request) : list Request :=
  match l with
  | [] => []
  | r :: l' => if String.eqb (url r) path then l' else r :: remove_first path l'
  end.

(** Calling [fetch] sends the request at once. *)
Definition issue (req : Request) : Eff unit :=
  modify (fun w => {| app := app w; wiz := wiz w;
                      requests := requests w ++ [req];
                      pending := pending w ++ [req] |}).

(** [await] of the promise of [req], which settles as [answer]. *)
Definition settle {A : Type} (req : Request) (answer : FetchResult A)
  : Eff (Response A) :=
  modify (fun w => {| app := app w; wiz := wiz w;
                      requests := requests w;
                      pending := remove_first (url req) (pending w) |}) ;;
  match answer with
  | Rejected => throw
  | Resolved r => mret r
  end.

Definition fetch {A : Type} (req : Request) (answer : FetchResult A)
  : Eff (Response A) :=
  issue req ;; settle req answer.

(** [await response.json()] *)
Definition json {A : Type} (r : Response A) : Eff A :=
  match json_value r with
  | Some data => mret data
  | None => throw
  end.

Definition set_app (f : AppState -> AppState) : Eff unit :=
  modify (fun w => {| app := f (app w); wiz := wiz w;
                      requests := requests w; pending := pending w |}).

Definition set_wiz (f : WizardState -> WizardState) : Eff unit :=
  modify (fun w => {| app := app w; wiz := f (wiz w);
                      requests := requests w; pending := pending w |}).

(** ** PortfolioWizard *)

Module PortfolioWizard.

(** The [useState] initial values. *)
Definition initial : WizardState :=
    {| step := 1; amount := "100000"; horizon := "medium"; targetSri := [4];
       wiz_loading := false; error := None; selectedPreset := None |}.

Definition setStep (v : Z) : Eff unit :=
    set_wiz (fun s => {| step := v; amount := amount s; horizon := horizon s;
                         targetSri := targetSri s; wiz_loading := wiz_loading s;
                         error := error s; selectedPreset := selectedPreset s |}).

Definition setAmount (v : string) : Eff unit :=
    set_wiz (fun s => {| step := step s; amount := v; horizon := horizon s;
                         targetSri := targetSri s; wiz_loading := wiz_loading s;
                         error := error s; selectedPreset := selectedPreset s |}).

Definition setHorizon (v : string) : Eff unit :=
    set_wiz (fun s => {| step := step s; amount := amount s; horizon := v;
                         targetSri := targetSri s; wiz_loading := wiz_loading s;
                         error := error s; selectedPreset := selectedPreset s |}).

Definition setTargetSri (v : list Z) : Eff unit :=
    set_wiz (fun s => {| step := step s; amount := amount s; horizon := horizon s;
                         targetSri := v; wiz_loading := wiz_loading s;
                         error := error s; selectedPreset := selectedPreset s |}).

Definition setLoading (v : bool) : Eff unit :=
    set_wiz (fun s => {| step := step s; amount := amount s; horizon := horizon s;
                         targetSri := targetSri s; wiz_loading := v;
                         error := error s; selectedPreset := selectedPreset s |}).

Definition setError (v : option string) : Eff unit :=
    set_wiz (fun s => {| step := step s; amount := amount s; horizon := horizon s;
                         targetSri := targetSri s; wiz_loading := wiz_loading s;
                         error := v; selectedPreset := selectedPreset s |}).

Definition setSelectedPreset (v : option string) : Eff unit :=
    set_wiz (fun s => {| step := step s; amount := amount s; horizon := horizon s;
                         targetSri := targetSri s; wiz_loading := wiz_loading s;
                         error := error s; selectedPreset := v |}).

Record Preset : Type := {
    id : string;
    preset_label : string;
    preset_sri : Z;
    preset_horizon : string;
    preset_description : string
  }.

Definition prudent : Preset :=
    {| id := "prudent"; preset_label := "Prudent"; preset_sri := 2;
       preset_horizon := "short";
       preset_description :=
         "On privilegie les fonds stables, drawdown limite, peu de volatilite." |}.

Definition equilibre : Preset :=
    {| id := "equilibre"; preset_label := "Equilibre"; preset_sri := 4;
       preset_horizon := "medium";
       preset_description :=
         "On equilibre qualite de gestion et opportunites de valorisation." |}.

Definition dynamique : Preset :=
    {| id := "dynamique"; preset_label := "Dynamique"; preset_sri := 6;
       preset_horizon := "long";
       preset_description :=
         "On accepte plus de volatilite pour chercher davantage de performance." |}.

Definition presets : list Preset := [prudent; equilibre; dynamique].

#[global] Instance Preset_eq_dec : EqDecision Preset.
Proof. solve_decision. Defined.

Definition handlePresetSelect (preset : Preset) : Eff unit :=
    setSelectedPreset (Some (id preset)) ;;
    setTargetSri [preset_sri preset] ;;
    setHorizon (preset_horizon preset).

(** The slider's [onValueChange]. *)
Definition onValueChange (v : list Z) : Eff unit :=
    setTargetSri v ;; setSelectedPreset None.

Definition suggestRequest (s : WizardState) : Request :=
    {| url := "/api/portfolio/suggest";
       method := "POST";
       body := Some {| body_amount := json_number (parseFloat (amount s));
                       body_horizon := horizon s;
                       body_target_sri := targetSri s !! 0%nat;
                       body_sri_tolerance := 1 |} |}.

Definition errorMessage : string :=
    "Erreur lors de la generation du portefeuille".

Section Props.

Variable onClose : Eff unit.
Variable onComplete : PortfolioSuggestion -> Eff unit.

(** [answer] is how the suggestion request settles. *)
Definition handleSubmit (answer : FetchResult PortfolioSuggestion)
      : Eff unit :=
      s ← gets wiz;
      setLoading true ;;
      setError None ;;
      try_catch_finally
        (response ← fetch (suggestRequest s) answer;
         if negb (ok response) then throw
         else data ← json response; onComplete data)
        (setError (Some errorMessage))
        (setLoading false).

(** The left button: "Annuler" on the first step, "Retour" after. *)
Definition onBack : Eff unit :=
      s ← gets wiz;
      if step s =? 1 then onClose else setStep (step s - 1).

(** The "Suivant" button. *)
Definition onNext : Eff unit :=
      s ← gets wiz;
      setStep (step s + 1).

(** The controls a user can act on. *)
Inductive Control : Type :=
    | AmountInput (value : string)
    | HorizonSelect (value : string)
    | PresetButton (preset : Preset)
    | RiskSlider (value : list Z)
    | BackButton
    | NextButton
    | SubmitButton (answer : FetchResult PortfolioSuggestion).

(** Whether the render of state [s] offers the control: each step shows
        its own inputs; "Suivant" is drawn while [step < 3], the submit
        button otherwise, [disabled] while [loading]. *)
Definition rendered (s : WizardState) (c : Control) : bool :=
      match c with
      | AmountInput _ => step s =? 1
      | HorizonSelect _ => step s =? 2
      | PresetButton p => (step s =? 3) && bool_decide (p ∈ presets)
      | RiskSlider _ => step s =? 3
      | BackButton => true
      | NextButton => step s <? 3
      | SubmitButton _ => negb (step s <? 3) && negb (wiz_loading s)
      end.

Definition handler (c : Control) : Eff unit :=
      match c with
      | AmountInput v => setAmount v
      | HorizonSelect v => setHorizon v
      | PresetButton p => handlePresetSelect p
      | RiskSlider v => onValueChange v
      | BackButton => onBack
      | NextButton => onNext
      | SubmitButton answer => handleSubmit answer
      end.

(** Acting on a control that is not offered is impossible. *)
Definition act (c : Control) (w : World) : option World :=
      if rendered (wiz w) c then Some (exec (handler c) w) else None.

End Props.

End PortfolioWizard.


(** ** PortfolioResults *)

Record Tile : Type := {
  tile_value : number;
  tile_caption : string
}.

Record ExplanationBlock : Type := {
  explanation_text : string;
  (** the sub-block, when drawn: average confidence and consensus summary *)
  explanation_sub : option (option number * option string)
}.

Record ResultsView : Type := {
  tiles : list Tile;
  distribution : list (string * number);
  analysis : ExplanationBlock;
  allocation_list : list CardView
}.

(** One card of "Allocations detaillees". A falsy [fundamental_score] that
    is the number [0] is rendered by React as the text "0". *)
Definition allocation_card (idx : nat) (alloc : FundAllocation) : CardView :=
  let f := fund alloc in
  {| className := "bg-gray-700/30 border-gray-600/50";
     content :=
       [ RankSpan (Z.of_nat idx + 1) ["text-sky-400 font-bold text-xs"];
         NameText (name f); IsinText (isin f);
         AllocationPercent (allocation_percent alloc);
         AmountEur (amount_eur alloc);
         SRIBadge (sri f); AssetClassBadge (asset_class f) ]
       ++ match priority f with
          | Some p => [PriorityBadge p]
          | None => []
          end
       ++ match fundamental_score f with
          | Some s => if truthy_number (Some s) then [ScoreBadge s]
                      else [TextNode "0"]
          | None => []
          end
       ++ match confidence f with
          | Some c => [ConfBadge c]
          | None => []
          end |}.

Definition PortfolioResults (p : PortfolioSuggestion) : ResultsView :=
  {| tiles :=
       [ {| tile_value := total_amount p; tile_caption := "Montant total" |};
         {| tile_value := num_funds p; tile_caption := "Fonds" |};
         {| tile_value := average_sri p; tile_caption := "SRI moyen" |};
         {| tile_value :=
              inject_Z (Z.of_nat (length (Object_keys (asset_class_distribution p))));
            tile_caption := "Classes d'actifs" |} ];
     distribution := Object_entries (asset_class_distribution p);
     analysis :=
       {| explanation_text := explanation p;
          explanation_sub :=
            if negb (is_null (average_confidence p))
               || truthy_string (consensus_summary p)
            then Some (average_confidence p,
                       if truthy_string (consensus_summary p)
                       then consensus_summary p else None)
            else None |};
     allocation_list := imap allocation_card (allocations p) |}.

(** ** App *)

Module App.

Definition initial : AppState :=
  {| topFunds := []; stats := None; loading := true; mobileMenuOpen := false;
     wizardOpen := false; portfolio := None; activeTab := "top-week";
     rankedFunds := []; viewMode := simple |}.

Definition setTopFunds (v : list Fund) : Eff unit :=
  set_app (fun a => {| topFunds := v; stats := stats a; loading := loading a;
                       mobileMenuOpen := mobileMenuOpen a;
                       wizardOpen := wizardOpen a; portfolio := portfolio a;
                       activeTab := activeTab a; rankedFunds := rankedFunds a;
                       viewMode := viewMode a |}).

Definition setStats (v : option Stats) : Eff unit :=
  set_app (fun a => {| topFunds := topFunds a; stats := v; loading := loading a;
                       mobileMenuOpen := mobileMenuOpen a;
                       wizardOpen := wizardOpen a; portfolio := portfolio a;
                       activeTab := activeTab a; rankedFunds := rankedFunds a;
                       viewMode := viewMode a |}).

Definition setLoading (v : bool) : Eff unit :=
  set_app (fun a => {| topFunds := topFunds a; stats := stats a; loading := v;
                       mobileMenuOpen := mobileMenuOpen a;
                       wizardOpen := wizardOpen a; portfolio := portfolio a;
                       activeTab := activeTab a; rankedFunds := rankedFunds a;
                       viewMode := viewMode a |}).

Definition setWizardOpen (v : bool) : Eff unit :=
  set_app (fun a => {| topFunds := topFunds a; stats := stats a;
                       loading := loading a;
                       mobileMenuOpen := mobileMenuOpen a;
                       wizardOpen := v; portfolio := portfolio a;
                       activeTab := activeTab a; rankedFunds := rankedFunds a;
                       viewMode := viewMode a |}).

Definition setPortfolio (v : option PortfolioSuggestion) : Eff unit :=
  set_app (fun a => {| topFunds := topFunds a; stats := stats a;
                       loading := loading a;
                       mobileMenuOpen := mobileMenuOpen a;
                       wizardOpen := wizardOpen a; portfolio := v;
                       activeTab := activeTab a; rankedFunds := rankedFunds a;
                       viewMode := viewMode a |}).

Definition setActiveTab (v : string) : Eff unit :=
  set_app (fun a => {| topFunds := topFunds a; stats := stats a;
                       loading := loading a;
                       mobileMenuOpen := mobileMenuOpen a;
                       wizardOpen := wizardOpen a; portfolio := portfolio a;
                       activeTab := v; rankedFunds := rankedFunds a;
                       viewMode := viewMode a |}).

Definition setRankedFunds (v : list Fund) : Eff unit :=
  set_app (fun a => {| topFunds := topFunds a; stats := stats a;
                       loading := loading a;
                       mobileMenuOpen := mobileMenuOpen a;
                       wizardOpen := wizardOpen a; portfolio := portfolio a;
                       activeTab := activeTab a; rankedFunds := v;
                       viewMode := viewMode a |}).

Definition setViewMode (v : ViewMode) : Eff unit :=
  set_app (fun a => {| topFunds := topFunds a; stats := stats a;
                       loading := loading a;
                       mobileMenuOpen := mobileMenuOpen a;
                       wizardOpen := wizardOpen a; portfolio := portfolio a;
                       activeTab := activeTab a; rankedFunds := rankedFunds a;
                       viewMode := v |}).

Definition topWeekRequest : Request := GET "/api/top-week?limit=20".
Definition statsRequest : Request := GET "/api/stats".
Definition rankedRequest : Request := GET "/api/ranked?limit=50".

(** [await Promise.all([fetch(a), fetch(b)])]: both requests are sent, and
    the rejection of either promise rejects the whole. *)
Definition Promise_all2 {A B : Type} (reqA reqB : Request)
    (ansA : FetchResult A) (ansB : FetchResult B)
  : Eff (Response A * Response B) :=
  issue reqA ;;
  issue reqB ;;
  a ← settle reqA ansA;
  b ← settle reqB ansB;
  mret (a, b).

(** The mount effect; [console.error] has no effect on the state. *)
Definition fetchData (topAnswer : FetchResult (list Fund))
    (statsAnswer : FetchResult Stats) : Eff unit :=
  try_catch_finally
    (res ← Promise_all2 topWeekRequest statsRequest topAnswer statsAnswer;
     let '(topRes, statsRes) := res in
     (if ok topRes then topData ← json topRes; setTopFunds topData
      else mret tt) ;;
     (if ok statsRes then statsData ← json statsRes; setStats (Some statsData)
      else mret tt))
    (mret tt)
    (setLoading false).

(** [fetchRankedFunds] up to its [await fetch(...)]. *)
Definition fetchRankedFunds_start : Eff unit := issue rankedRequest.

(** [fetchRankedFunds] from the point where the promise settles. *)
Definition fetchRankedFunds_resume (answer : FetchResult (list Fund))
  : Eff unit :=
  try_catch
    (res ← settle rankedRequest answer;
     if ok res then data ← json res; setRankedFunds data
     else mret tt)
    (mret tt).

Definition fetchRankedFunds (answer : FetchResult (list Fund)) : Eff unit :=
  fetchRankedFunds_start ;; fetchRankedFunds_resume answer.

(** The body of the second [useEffect]. *)
Definition rankedEffect : Eff unit :=
  a ← gets app;
  if String.eqb (activeTab a) "ranked" && (length (rankedFunds a) =? 0)%nat
  then fetchRankedFunds_start
  else mret tt.

(** Its dependency array, [[activeTab, rankedFunds.length]]. *)
Definition rankedDeps (a : AppState) : string * nat :=
  (activeTab a, length (rankedFunds a)).

(** After a state update React renders again and runs the effect when a
    dependency differs from the previous render. *)
Definition commit (before : AppState) : Eff unit :=
  a ← gets app;
  if bool_decide (rankedDeps a = rankedDeps before) then mret tt
  else rankedEffect.

Definition handlePortfolioComplete (newPortfolio : PortfolioSuggestion)
  : Eff unit :=
  setPortfolio (Some newPortfolio) ;;
  setWizardOpen false.

(** The props [App] passes to [PortfolioWizard]. *)
Definition wizard_onClose : Eff unit := setWizardOpen false.
Definition wizard_onComplete : PortfolioSuggestion → Eff unit :=
  handlePortfolioComplete.

(** Requests sent, and requests outstanding, for one endpoint. *)
Definition sent (path : string) (w : World) : nat :=
  length (filter (fun r => url r = path) (requests w)).

Definition in_flight (path : string) (w : World) : nat :=
  length (filter (fun r => url r = path) (pending w)).

(** What happens to the mounted application. *)
Inductive Event : Type :=
| TabChange (tab : string)
| ViewModeChange (mode : ViewMode)
| RankedSettled (answer : FetchResult (list Fund)).


Definition react (e : Event) : Eff unit :=
  before ← gets app;
  match e with
  | TabChange tab => setActiveTab tab
  | ViewModeChange mode => setViewMode mode
  | RankedSettled answer => fetchRankedFunds_resume answer
  end ;;
  commit before.

(** A promise settles only if its request is outstanding. *)
Definition step_event (w : World) (e : Event) : World :=
  match e with
  | RankedSettled _ =>
      if (in_flight (url rankedRequest) w =? 0)%nat then w else exec (react e) w
  | _ => exec (react e) w
  end.

Definition run (w : World) (es : list Event) : World :=
  fold_left step_event es w.

(** First render: both effects run, the first one sends the two requests of
    [fetchData]; they settle as [topAnswer] and [statsAnswer]. *)
Definition mount (topAnswer : FetchResult (list Fund))
    (statsAnswer : FetchResult Stats) : Eff unit :=
  fetchData topAnswer statsAnswer ;; rankedEffect.

Definition boot : World :=
  {| app := initial; wiz := PortfolioWizard.initial;
     requests := []; pending := [] |}.

End App.

(** ** The specification's reading of the views and states *)







(** The highlight tier a card shows. *)
Definition card_tier (c : CardView) : Tier := tier_of_styles (className c).

(** The allocation list as the specification words it: the fund card of
    each constituent fund, ranked by position. *)
Definition spec_allocation_list (viewMode : ViewMode) (p : PortfolioSuggestion)
  : list CardView :=
  imap (fun idx alloc => FundCard (Some (Z.of_nat idx + 1)) viewMode false
                                  (fund alloc))
       (allocations p).

Definition is_profile_or_performance (e : Element) : bool :=
  match e with
  | Profile _ | Performance _ => true
  | _ => false
  end.

(** What may follow the asset-class badge on an allocation card: the
    priority, score and confidence badges, and the text React draws for a
    score of 0. *)
Definition is_trailing_badge (e : Element) : bool :=
  match e with
  | PriorityBadge _ | ScoreBadge _ | ConfBadge _ | TextNode _ => true
  | _ => false
  end.

(** The wizard states of the specification, read off the component state:
    submitting while [loading], failed while an error message is shown, and
    once the dialog is closed, succeeded if a portfolio was handed over. *)
Inductive WizardPhase : Type :=
| AtStep (n : Z)
| Submitting
| Succeeded (result : PortfolioSuggestion)
| Failed (message : string)
| Closed.

Definition phase (w : World) : WizardPhase :=
  if wiz_loading (wiz w) then Submitting
  else match error (wiz w) with
       | Some message => Failed message
       | None =>
           if wizardOpen (app w) then AtStep (step (wiz w))
           else match portfolio (app w) with
                | Some p => Succeeded p
                | None => Closed
                end
       end.

(** The wizard as [App] mounts it. *)
Definition wizard_act : PortfolioWizard.Control → World → option World :=
  PortfolioWizard.act App.wizard_onClose App.wizard_onComplete.

Fixpoint wizard_run (w : World) (cs : list PortfolioWizard.Control)
  : option World :=
  match cs with
  | [] => Some w
  | c :: cs' =>
      match wizard_act c w with
      | Some w' => wizard_run w' cs'
      | None => None
      end
  end.

(** The validation the specification attributes to "next" on the first
    step: the amount is a non-empty numeric string. *)
Definition spec_amount_ok (s : string) : bool :=
  negb (String.eqb s "")
  && match parseFloat s with
     | Finite _ => true
     | _ => false
     end.

(** ** Sample data *)

Definition vol_only : FundMetrics :=
  {| perf_1w := None; perf_1m := None; perf_3m := None; perf_1y := None;
     perf_3y := None; vol_60d := Some 12%Q; sharpe_ratio := None;
     sortino_ratio := None; max_drawdown := None |}.

Definition sample_fund : Fund :=
  {| isin := "FR0000000001"; name := "Fonds A"; management_company := None;
     sri := 3; asset_class := "actions"; description := None;
     available_platforms := []; is_standard_isin := true; label := None;
     metrics := Some vol_only; fundamental_score := Some 0%Q;
     top_week_score := None; priority := Some high; confidence := Some 0%Q;
     reasoning := None; quality_score := Some 150%Q; valuation_score := None;
     stability_score := Some (-5)%Q; consensus_level := None |}.

Definition sample_portfolio : PortfolioSuggestion :=
  {| allocations := [ {| fund := sample_fund; allocation_percent := 100%Q;
                         amount_eur := 50000%Q |} ];
     total_amount := 50000%Q; average_sri := 3%Q; num_funds := 1%Q;
     asset_class_distribution := [("actions", 100%Q)];
     explanation := "Portefeuille dynamique";
     average_confidence := None; consensus_summary := None |}.

Definition sample_stats : Stats :=
  {| total_funds := 120%Q; standard_isin_funds := 100%Q;
     special_funds := 20%Q; sri_distribution := [("3", 120%Q)];
     st_asset_class_distribution := [("actions", 120%Q)] |}.

Definition success {A : Type} (data : A) : FetchResult A :=
  Resolved {| ok := true; json_value := Some data |}.

Definition server_error {A : Type} : FetchResult A :=
  Resolved {| ok := false; json_value := None |}.

(** The application after its first render, both start-up fetches answered. *)
Definition mounted : World :=
  exec (App.mount (success [sample_fund]) (success sample_stats)) App.boot.

(** The wizard opened and brought to its third step with amount "50000" and
    the preset "dynamique". *)
Definition scenario : World :=
  {| app := {| topFunds := [sample_fund]; stats := Some sample_stats;
               loading := false; mobileMenuOpen := false; wizardOpen := true;
               portfolio := None; activeTab := "top-week"; rankedFunds := [];
               viewMode := simple |};
     wiz := {| step := 3; amount := "50000"; horizon := "long";
               targetSri := [6]; wiz_loading := false; error := None;
               selectedPreset := Some "dynamique" |};
     requests := requests mounted; pending := [] |}.

(** The wizard just opened, its amount field emptied. *)
Definition empty_amount : World :=
  {| app := app scenario;
     wiz := {| step := 1; amount := ""; horizon := "medium"; targetSri := [4];
               wiz_loading := false; error := None; selectedPreset := None |};
     requests := requests mounted; pending := [] |}.

(** What a settled request hands to the caller: the decoded body of a
    response with [ok], nothing on a rejection, a non-[ok] status or a body
    that does not decode. *)
Definition delivered {A : Type} (answer : FetchResult A) : option A :=
  match answer with
  | Rejected => None
  | Resolved r => if ok r then json_value r else None
  end.

(** The wizard state once a submission has settled. *)
Definition settled_wizard (s : WizardState) (err : option string)
  : WizardState :=
  {| step := step s; amount := amount s; horizon := horizon s;
     targetSri := targetSri s; wiz_loading := false; error := err;
     selectedPreset := selectedPreset s |}.

(** The request body of the scenario: 50000, long horizon, SRI 6. *)
Definition scenario_request : Request :=
  {| url := "/api/portfolio/suggest"; method := "POST";
     body := Some {| body_amount := Some 50000%Q; body_horizon := "long";
                     body_target_sri := Some 6; body_sri_tolerance := 1 |} |}.

(** The wizard just opened. *)
Definition opened : World :=
  {| app := app scenario; wiz := PortfolioWizard.initial;
     requests := requests mounted; pending := [] |}.


(** ** Further parts of App.tsx *)

(** The fund grids of the two tabs: one [FundCard] per fund, in list order,
    with [rank={idx + 1}]. The cards are keyed by ISIN, and [expanded] gives
    the expansion state each card holds. *)
Definition FundGrid (viewMode : ViewMode) (expanded : string → bool)
    (funds : list Fund) : list CardView :=
  imap (fun idx f => FundCard (Some (Z.of_nat idx + 1)) viewMode
                              (expanded (isin f)) f)
       funds.

Inductive TabContent : Type :=
| Skeletons (n : nat)
| Grid (cards : list CardView).

(** The "top-week" tab: six placeholder cards while [loading]. *)
Definition topWeekTab (expanded : string → bool) (a : AppState) : TabContent :=
  if loading a then Skeletons 6
  else Grid (FundGrid (viewMode a) expanded (topFunds a)).

(** The "ranked" tab has no placeholder. *)
Definition rankedTab (expanded : string → bool) (a : AppState) : TabContent :=
  Grid (FundGrid (viewMode a) expanded (rankedFunds a)).

(** Height in pixels of a bar of the SRI distribution,
    [Math.max(4, (count / stats.total_funds) * 200)]. The quotient is the
    rational one, so the definition stands for the source when
    [total_funds] is not zero. *)
Definition sriBarHeight (count total : number) : number :=
  Math_max 4%Q (count / total * 200)%Q.

(** [handleSubmit] up to its [await fetch(...)]: the request is on its way. *)
Definition handleSubmit_start : Eff unit :=
  s ← gets wiz;
  PortfolioWizard.setLoading true ;;
  PortfolioWizard.setError None ;;
  issue (PortfolioWizard.suggestRequest s).

(** [handleSubmit] from the point where the promise of [req] settles. *)
Definition handleSubmit_resume (onComplete : PortfolioSuggestion → Eff unit)
    (req : Request) (answer : FetchResult PortfolioSuggestion) : Eff unit :=
  try_catch_finally
    (response ← settle req answer;
     if negb (ok response) then throw
     else data ← json response; onComplete data)
    (PortfolioWizard.setError (Some PortfolioWizard.errorMessage))
    (PortfolioWizard.setLoading false).

(** The preset description block of the third step: drawn when
    [selectedPreset] is truthy, with the description of the preset
    [presets.find(p => p.id === selectedPreset)], if any. *)
Definition presetDescription (s : WizardState) : option (option string) :=
  match selectedPreset s with
  | Some sel =>
      if truthy_string (Some sel)
      then Some (PortfolioWizard.preset_description
                   <$> List.find (fun p => String.eqb (PortfolioWizard.id p) sel)
                                 PortfolioWizard.presets)
      else None
  | None => None
  end.

(** The values the horizon select offers. *)
Definition horizonOptions : list string := ["short"; "medium"; "long"].

Definition is_submit (c : PortfolioWizard.Control) : bool :=
  match c with
  | PortfolioWizard.SubmitButton _ => true
  | _ => false
  end.

(** The second step reached back from the scenario, preset still selected. *)
Definition scenario_step2 : World :=
  {| app := app scenario;
     wiz := {| step := 2; amount := "50000"; horizon := "long";
               targetSri := [6]; wiz_loading := false; error := None;
               selectedPreset := Some "dynamique" |};
     requests := requests mounted; pending := [] |}.

(** Whether a promise resolved, and whether its response is [ok] with a
    body that does not decode. *)
Definition resolved {A : Type} (answer : FetchResult A) : bool :=
  match answer with
  | Rejected => false
  | Resolved _ => true
  end.

Definition undecodable {A : Type} (answer : FetchResult A) : bool :=
  match answer with
  | Rejected => false
  | Resolved r => ok r && is_null (json_value r)
  end.

(** ** The wizard dialog

    [App] draws [PortfolioWizard] inside [<Dialog open={wizardOpen}
    onOpenChange={setWizardOpen}>]: the wizard is mounted while the dialog
    is open, with its [useState] initial values on each opening, and its
    controls exist only then. *)
Inductive DialogEvent : Type :=
| Use (c : PortfolioWizard.Control)
| OpenDialog
| DismissDialog.

Definition dialog_step (w : World) (e : DialogEvent) : option World :=
  match e with
  | Use c => if wizardOpen (app w) then wizard_act c w else None
  | OpenDialog =>
      if wizardOpen (app w) then None
      else Some {| app := app (exec (App.setWizardOpen true) w);
                   wiz := PortfolioWizard.initial;
                   requests := requests w; pending := pending w |}
  | DismissDialog =>
      if wizardOpen (app w) then Some (exec (App.setWizardOpen false) w)
      else None
  end.

Fixpoint dialog_run (w : World) (es : list DialogEvent) : option World :=
  match es with
  | [] => Some w
  | e :: es' =>
      match dialog_step w e with
      | Some w' => dialog_run w' es'
      | None => None
      end
  end.

(** * Properties *)

(** Membership in a list built with [++] and [::]. *)
Ltac solve_elem_of :=
  repeat (progress rewrite ?elem_of_app, ?elem_of_cons);
  intuition (auto; try reflexivity).

(** Unfolding a computation down to the state it returns. *)
Ltac unfold_eff :=
  unfold exec, mbind, mret, Eff_bind, Eff_ret, gets, modify; cbn.

(** ** Fund presentation *)










Lemma tier_of_plain_card (rank : option Z) :
  rank ≠ Some 1 → rank ≠ Some 2 → rank ≠ Some 3 →
  tier_of_styles (cardClass rank) = none.
Proof.
  intros H1 H2 H3. unfold cardClass, topRankStyles, isTop1, isTop2, isTop3.
  rewrite !bool_decide_eq_false_2 by assumption.
  destruct (isTopRank rank); reflexivity.
Qed.

(** C7. The highlight tier of a fund card is decided by the rank alone:
    gold for rank 1, silver for rank 2, bronze for rank 3, none for any
    other rank or no rank; the fund (its scores included), the view mode and
    the expansion state do not enter. *)
Theorem card_tier_by_rank
    (rank : option Z) (viewMode : ViewMode) (expanded : bool) (f : Fund) :
  card_tier (FundCard rank viewMode expanded f)
  = (if decide (rank = Some 1) then gold
     else if decide (rank = Some 2) then silver
     else if decide (rank = Some 3) then bronze
     else none)
  ∧ ∀ (viewMode' : ViewMode) (expanded' : bool) (f' : Fund),
      card_tier (FundCard rank viewMode' expanded' f')
      = card_tier (FundCard rank viewMode expanded f).
Proof.
  split; [|reflexivity].
  unfold card_tier, FundCard; cbn [className].
  destruct (decide (rank = Some 1)) as [->|H1]; [reflexivity|].
  destruct (decide (rank = Some 2)) as [->|H2]; [reflexivity|].
  destruct (decide (rank = Some 3)) as [->|H3]; [reflexivity|].
  apply tier_of_plain_card; assumption.
Qed.

(** ** Result view *)

Lemma allocation_list_lookup (p : PortfolioSuggestion) (idx : nat)
    (alloc : FundAllocation) :
  allocations p !! idx = Some alloc →
  allocation_list (PortfolioResults p) !! idx
  = Some (allocation_card idx alloc).
Proof.
  intros H. cbn [PortfolioResults allocation_list].
  rewrite list_lookup_imap, H. reflexivity.
Qed.

Lemma score_badge_iff (idx : nat) (alloc : FundAllocation) (s : number) :
  ScoreBadge s ∈ content (allocation_card idx alloc)
  ↔ fundamental_score (fund alloc) = Some s ∧ ¬ (s == 0)%Q.
Proof.
  unfold allocation_card; cbn [content]. unfold truthy_number.
  destruct (priority (fund alloc)), (fundamental_score (fund alloc)) as [q|],
           (confidence (fund alloc));
    try (destruct (Qeq_bool q 0%Q) eqn:E;
         [apply Qeq_bool_iff in E | apply Qeq_bool_neq in E]);
    cbn [negb];
    repeat (progress rewrite ?elem_of_app, ?elem_of_cons, ?elem_of_nil);
    intuition (simplify_eq; auto).
Qed.

Lemma conf_badge_iff (idx : nat) (alloc : FundAllocation) (c : number) :
  ConfBadge c ∈ content (allocation_card idx alloc)
  ↔ confidence (fund alloc) = Some c.
Proof.
  unfold allocation_card; cbn [content].
  destruct (priority (fund alloc)), (fundamental_score (fund alloc)) as [q|],
           (confidence (fund alloc));
    try destruct (truthy_number (Some q));
    repeat (progress rewrite ?elem_of_app, ?elem_of_cons, ?elem_of_nil);
    intuition (simplify_eq; auto).
Qed.

(** C10. In the allocation list of the result view, the card of a
    constituent fund carries a score badge exactly when [fundamental_score]
    is neither null nor zero (a score of 0 gives no badge), whereas the
    confidence badge is there for every non-null confidence, 0 included. *)
Theorem allocation_score_badge_needs_nonzero_score
    (p : PortfolioSuggestion) (idx : nat) (alloc : FundAllocation) :
  allocations p !! idx = Some alloc →
  ∃ card, allocation_list (PortfolioResults p) !! idx = Some card
    ∧ (∀ s, ScoreBadge s ∈ content card
            ↔ fundamental_score (fund alloc) = Some s ∧ ¬ (s == 0)%Q)
    ∧ (∀ c, ConfBadge c ∈ content card ↔ confidence (fund alloc) = Some c).
Proof.
  intros H. exists (allocation_card idx alloc).
  split; [apply allocation_list_lookup, H|].
  split; intros x; [apply score_badge_iff | apply conf_badge_iff].
Qed.

(** At the sample portfolio, whose one fund has score 0 and confidence 0:
    no score badge, and the confidence badge "0". *)
Lemma allocation_score_badge_witness :
  ∃ card, allocation_list (PortfolioResults sample_portfolio) !! 0%nat = Some card
    ∧ (∀ s, ¬ ScoreBadge s ∈ content card)
    ∧ ConfBadge 0%Q ∈ content card.
Proof.
  destruct (allocation_score_badge_needs_nonzero_score sample_portfolio 0
              {| fund := sample_fund; allocation_percent := 100%Q;
                 amount_eur := 50000%Q |} eq_refl)
    as (card & Hcard & Hscore & Hconf).
  exists card. split; [exact Hcard|]. split.
  - intros s Hs. apply Hscore in Hs. destruct Hs as [Hs Hnz].
    apply Hnz. injection Hs as <-. reflexivity.
  - apply Hconf. reflexivity.
Defined.

(** C9, as worded, fails: the allocation list is not made of fund cards.
    At the sample portfolio its one card differs from the fund card of the
    same fund at rank 1, in either view mode: it has no sub-score profile
    and no performance strip. *)
Lemma allocation_list_counterexample :
  allocation_list (PortfolioResults sample_portfolio)
    ≠ spec_allocation_list simple sample_portfolio
  ∧ allocation_list (PortfolioResults sample_portfolio)
    ≠ spec_allocation_list advanced sample_portfolio
  ∧ map (fun c => existsb is_profile_or_performance (content c))
        (allocation_list (PortfolioResults sample_portfolio)) = [false]
  ∧ map (fun c => existsb is_profile_or_performance (content c))
        (spec_allocation_list simple sample_portfolio) = [true].
Proof.
  assert (Hcode : map (fun c => existsb is_profile_or_performance (content c))
                      (allocation_list (PortfolioResults sample_portfolio))
                  = [false]) by reflexivity.
  repeat split; try reflexivity.
  - intros H. rewrite H in Hcode. discriminate Hcode.
  - intros H. rewrite H in Hcode. discriminate Hcode.
Qed.

Lemma remove_dups_NoDup (l : list string) : NoDup l → remove_dups l = l.
Proof.
  induction 1 as [|x l Hx Hl IH]; [reflexivity|].
  simpl. destruct (decide_rel elem_of x l) as [Hin|_]; [contradiction|].
  rewrite IH. reflexivity.
Qed.

Lemma allocation_card_plain (idx : nat) (alloc : FundAllocation) :
  existsb is_profile_or_performance (content (allocation_card idx alloc))
  = false.
Proof.
  unfold allocation_card; cbn [content].
  destruct (priority (fund alloc)),
           (fundamental_score (fund alloc)) as [q|],
           (confidence (fund alloc));
    try destruct (truthy_number (Some q)); reflexivity.
Qed.

(** C9, amended. The result view is a function of the suggestion, for
    every suggestion (one without allocations included): four tiles (total
    amount, [num_funds], average SRI, number of keys of the asset-class
    distribution, which is the number of distinct classes), the
    distribution entries as badges, the explanation with a sub-block that is
    drawn when the average confidence is not null or the consensus summary
    is non-empty and then holds that confidence and that summary, and one
    card per allocation, in order. Each card is rendered by the result view
    itself, not by the fund card: it starts with the rank position+1, shows
    name, ISIN, allocation percent and amount, the SRI and asset-class
    badges, then only badges: the priority badge of a known priority, the
    score badge of a score that is neither null nor zero, the confidence
    badge of a known confidence; it has no highlight tier, no sub-score
    profile and no performance strip. *)
Theorem PortfolioResults_view (p : PortfolioSuggestion) :
  let v := PortfolioResults p in
  map tile_value (tiles v)
  = [ total_amount p; num_funds p; average_sri p;
      inject_Z (Z.of_nat (length (Object_keys (asset_class_distribution p)))) ]
  ∧ (NoDup (Object_keys (asset_class_distribution p)) →
     length (Object_keys (asset_class_distribution p))
     = length (remove_dups (Object_keys (asset_class_distribution p))))
  ∧ distribution v = Object_entries (asset_class_distribution p)
  ∧ explanation_text (analysis v) = explanation p
  ∧ (is_Some (explanation_sub (analysis v))
     ↔ is_Some (average_confidence p)
       ∨ truthy_string (consensus_summary p) = true)
  ∧ (∀ sub, explanation_sub (analysis v) = Some sub →
            sub.1 = average_confidence p
            ∧ sub.2 = (if truthy_string (consensus_summary p)
                       then consensus_summary p else None))
  ∧ length (allocation_list v) = length (allocations p)
  ∧ ∀ (idx : nat) (alloc : FundAllocation),
      allocations p !! idx = Some alloc →
      ∃ (card : CardView) (rest : list Element),
        allocation_list v !! idx = Some card
        ∧ content card
          = [ RankSpan (Z.of_nat idx + 1) ["text-sky-400 font-bold text-xs"];
              NameText (name (fund alloc)); IsinText (isin (fund alloc));
              AllocationPercent (allocation_percent alloc);
              AmountEur (amount_eur alloc);
              SRIBadge (sri (fund alloc));
              AssetClassBadge (asset_class (fund alloc)) ] ++ rest
        ∧ forallb is_trailing_badge rest = true
        ∧ (∀ pr, PriorityBadge pr ∈ rest ↔ priority (fund alloc) = Some pr)
        ∧ (∀ s, ScoreBadge s ∈ rest
                ↔ fundamental_score (fund alloc) = Some s ∧ ¬ (s == 0)%Q)
        ∧ (∀ c, ConfBadge c ∈ rest ↔ confidence (fund alloc) = Some c)
        ∧ existsb is_profile_or_performance (content card) = false
        ∧ card_tier card = none.
Proof.
  intros v. subst v.
  split; [reflexivity|].
  split; [intros Hkeys; rewrite (remove_dups_NoDup _ Hkeys); reflexivity|].
  split; [reflexivity|]. split; [reflexivity|].
  split.
  { cbn. destruct (average_confidence p), (truthy_string (consensus_summary p));
      cbn; split; intros H;
      try (eexists; reflexivity);
      try (left; eexists; reflexivity); try (right; reflexivity);
      try (destruct H as [H|H]; [|discriminate H]);
      destruct (is_Some_None H). }
  split.
  { intros sub. cbn.
    destruct (average_confidence p), (truthy_string (consensus_summary p));
      cbn; intros [= <-]; split; reflexivity. }
  split; [apply length_imap|].
  intros idx alloc Halloc.
  eexists (allocation_card idx alloc), _.
  split; [apply allocation_list_lookup, Halloc|].
  split; [reflexivity|].
  split.
  { destruct (priority (fund alloc)),
             (fundamental_score (fund alloc)) as [q|],
             (confidence (fund alloc));
      try destruct (truthy_number (Some q)); reflexivity. }
  split; [|split; [|split; [|split; [apply allocation_card_plain
                                    | reflexivity]]]].
  - intros pr.
    destruct (priority (fund alloc)),
             (fundamental_score (fund alloc)) as [q|],
             (confidence (fund alloc));
      try destruct (truthy_number (Some q));
      repeat (progress rewrite ?elem_of_app, ?elem_of_cons, ?elem_of_nil);
      intuition (simplify_eq; auto).
  - intros s. rewrite <- (score_badge_iff idx alloc s).
    unfold allocation_card; cbn [content].
    repeat (progress rewrite ?elem_of_app, ?elem_of_cons, ?elem_of_nil).
    intuition (simplify_eq; auto).
  - intros c. rewrite <- (conf_badge_iff idx alloc c).
    unfold allocation_card; cbn [content].
    repeat (progress rewrite ?elem_of_app, ?elem_of_cons, ?elem_of_nil).
    intuition (simplify_eq; auto).
Qed.

(** The amended C9 at the sample portfolio and its first allocation, and at
    the same portfolio emptied of its allocations. *)
Lemma PortfolioResults_view_witness :
  map tile_value (tiles (PortfolioResults sample_portfolio))
  = [ 50000%Q; 1%Q; 3%Q; 1%Q ]
  ∧ length (Object_keys (asset_class_distribution sample_portfolio))
    = length (remove_dups
                (Object_keys (asset_class_distribution sample_portfolio)))
  ∧ ∃ (card : CardView) (rest : list Element),
      allocation_list (PortfolioResults sample_portfolio) !! 0%nat = Some card
      ∧ content card
        = [ RankSpan 1 ["text-sky-400 font-bold text-xs"];
            NameText "Fonds A"; IsinText "FR0000000001";
            AllocationPercent 100%Q; AmountEur 50000%Q;
            SRIBadge 3; AssetClassBadge "actions" ] ++ rest
      ∧ PriorityBadge high ∈ rest
      ∧ card_tier card = none.
Proof.
  destruct (PortfolioResults_view sample_portfolio)
    as (Htiles & Hkeys & _ & _ & _ & _ & _ & Hcards).
  split; [exact Htiles|].
  split; [apply Hkeys, NoDup_singleton|].
  destruct (Hcards 0%nat
              {| fund := sample_fund; allocation_percent := 100%Q;
                 amount_eur := 50000%Q |} eq_refl)
    as (card & rest & Hcard & Hcontent & _ & Hprio & _ & _ & _ & Htier).
  exists card, rest.
  split; [exact Hcard|]. split; [exact Hcontent|].
  split; [apply Hprio; reflexivity | exact Htier].
Defined.

(** ** Wizard *)

Import PortfolioWizard.

Lemma handleSubmit_exec (w : World) (answer : FetchResult PortfolioSuggestion) :
  let w' := exec (handleSubmit App.wizard_onComplete answer) w in
  requests w' = requests w ++ [suggestRequest (wiz w)]
  ∧ match delivered answer with
    | Some data =>
        wiz w' = settled_wizard (wiz w) None
        ∧ portfolio (app w') = Some data
        ∧ wizardOpen (app w') = false
    | None =>
        wiz w' = settled_wizard (wiz w) (Some errorMessage)
        ∧ app w' = app w
    end.
Proof.
  destruct answer as [|[[|] [data|]]]; cbn; auto.
Qed.


Lemma submit_offered (w : World) (answer : FetchResult PortfolioSuggestion) :
  step (wiz w) = 3 → wiz_loading (wiz w) = false →
  wizard_act (SubmitButton answer) w
  = Some (exec (handleSubmit App.wizard_onComplete answer) w).
Proof.
  intros Hs Hl. unfold wizard_act, act, rendered. rewrite Hs, Hl. reflexivity.
Qed.



(** C4. On the third step, choosing a preset sets the target risk, the
    horizon and the selected preset in one transition and nothing else; for
    "equilibre" they become 4, "medium" and "equilibre". Moving the slider
    afterwards, to 5, sets the target risk to 5, clears the selected preset
    and leaves the horizon as the preset set it. *)
Theorem applyPreset_then_setRisk (w : World) (p : Preset) (v : Z) :
  step (wiz w) = 3 → p ∈ presets →
  ∃ w1 w2,
    wizard_act (PresetButton p) w = Some w1
    ∧ targetSri (wiz w1) = [preset_sri p]
    ∧ horizon (wiz w1) = preset_horizon p
    ∧ selectedPreset (wiz w1) = Some (id p)
    ∧ (step (wiz w1), amount (wiz w1), wiz_loading (wiz w1), error (wiz w1))
      = (step (wiz w), amount (wiz w), wiz_loading (wiz w), error (wiz w))
    ∧ (app w1, requests w1, pending w1) = (app w, requests w, pending w)
    ∧ wizard_act (RiskSlider [v]) w1 = Some w2
    ∧ targetSri (wiz w2) !! 0%nat = Some v
    ∧ selectedPreset (wiz w2) = None
    ∧ horizon (wiz w2) = horizon (wiz w1)
    ∧ (p = equilibre → v = 5 →
       (targetSri (wiz w1) !! 0%nat, horizon (wiz w1), selectedPreset (wiz w1))
       = (Some 4, "medium", Some "equilibre")
       ∧ (targetSri (wiz w2) !! 0%nat, horizon (wiz w2), selectedPreset (wiz w2))
         = (Some 5, "medium", None)).
Proof.
  intros Hs Hp.
  exists (exec (handlePresetSelect p) w).
  exists (exec (onValueChange [v]) (exec (handlePresetSelect p) w)).
  split.
  { unfold wizard_act, act, rendered. rewrite Hs.
    rewrite bool_decide_eq_true_2 by exact Hp. reflexivity. }
  do 5 (split; [reflexivity|]).
  split.
  { unfold wizard_act, act, rendered.
    change (step (wiz (exec (handlePresetSelect p) w))) with (step (wiz w)).
    rewrite Hs. reflexivity. }
  do 3 (split; [reflexivity|]).
  intros -> ->. split; reflexivity.
Qed.

(** The claim's run: "equilibre", then the slider at 5, from the scenario. *)
Lemma applyPreset_then_setRisk_witness :
  ∃ w1 w2,
    wizard_act (PresetButton equilibre) scenario = Some w1
    ∧ wizard_act (RiskSlider [5]) w1 = Some w2
    ∧ (targetSri (wiz w1) !! 0%nat, horizon (wiz w1), selectedPreset (wiz w1))
      = (Some 4, "medium", Some "equilibre")
    ∧ (targetSri (wiz w2) !! 0%nat, horizon (wiz w2), selectedPreset (wiz w2))
      = (Some 5, "medium", None).
Proof.
  assert (Hin : equilibre ∈ presets)
    by (unfold presets; solve_elem_of).
  destruct (applyPreset_then_setRisk scenario equilibre 5 eq_refl Hin)
    as (w1 & w2 & H1 & _ & _ & _ & _ & _ & H2 & _ & _ & _ & Hrun).
  destruct (Hrun eq_refl eq_refl) as [Ha Hb].
  exists w1, w2. auto.
Defined.

(** C8, as worded, fails on the validation: on the first step "next" goes
    to the second step with the amount field empty. *)
Lemma next_without_amount_counterexample :
  step (wiz empty_amount) = 1
  ∧ spec_amount_ok (amount (wiz empty_amount)) = false
  ∧ ∃ w', wizard_act NextButton empty_amount = Some w' ∧ step (wiz w') = 2.
Proof.
  split; [reflexivity|]. split; [reflexivity|].
  eexists. split; reflexivity.
Qed.

Lemma wizard_act_step (c : Control) (w w' : World) :
  1 <= step (wiz w) <= 3 → wizard_act c w = Some w' →
  1 <= step (wiz w') <= 3.
Proof.
  intros Hstep. unfold wizard_act, act.
  destruct (rendered (wiz w) c) eqn:Hr; [|discriminate].
  intros [= <-].
  destruct c as [a|h|p|v| | |answer]; cbn in Hr |- *; try assumption.
  - unfold onBack. unfold_eff.
    destruct (Z.eqb_spec (step (wiz w)) 1) as [E|E]; cbn; lia.
  - apply Z.ltb_lt in Hr. unfold onNext. unfold_eff. lia.
  - destruct (handleSubmit_exec w answer) as [_ Hres].
    destruct (delivered answer); destruct Hres as [-> _]; exact Hstep.
Qed.

Lemma wizard_run_step (cs : list Control) (w w' : World) :
  1 <= step (wiz w) <= 3 → wizard_run w cs = Some w' →
  1 <= step (wiz w') <= 3.
Proof.
  revert w. induction cs as [|c cs IH]; intros w Hstep; cbn.
  - intros [= <-]. exact Hstep.
  - destruct (wizard_act c w) as [w1|] eqn:Hact; [|discriminate].
    apply IH. exact (wizard_act_step c w w1 Hstep Hact).
Qed.

(** C8, amended. On the first step the left button closes the wizard and
    "next" goes to the second step without any validation, whatever the
    amount string holds; on the third step there is no "next" (the submit
    button takes its place); and along any sequence of actions the step
    stays between 1 and 3. *)
Theorem wizard_navigation
    (first third w w' : World) (cs : list Control) :
  step (wiz first) = 1 → step (wiz third) = 3 →
  1 <= step (wiz w) <= 3 → wizard_run w cs = Some w' →
  (∃ closed, wizard_act BackButton first = Some closed
             ∧ wizardOpen (app closed) = false
             ∧ wiz closed = wiz first)
  ∧ (∃ second, wizard_act NextButton first = Some second
               ∧ step (wiz second) = 2
               ∧ amount (wiz second) = amount (wiz first)
               ∧ app second = app first
               ∧ requests second = requests first)
  ∧ wizard_act NextButton third = None
  ∧ 1 <= step (wiz w') <= 3.
Proof.
  intros H1 H3 Hw Hrun.
  split.
  { eexists. split; [reflexivity|].
    unfold handler, onBack. unfold_eff. rewrite H1. cbn. auto. }
  split.
  { eexists. split.
    - unfold wizard_act, act, rendered. rewrite H1. reflexivity.
    - unfold handler, onNext. unfold_eff. rewrite H1. auto. }
  split.
  { unfold wizard_act, act, rendered. rewrite H3. reflexivity. }
  exact (wizard_run_step cs w w' Hw Hrun).
Qed.

(** Navigation at the wizard with an empty amount, at the scenario, and
    along a walk forth and back. *)
Lemma wizard_navigation_witness :
  (∃ second, wizard_act NextButton empty_amount = Some second
             ∧ step (wiz second) = 2 ∧ amount (wiz second) = "")
  ∧ wizard_act NextButton scenario = None
  ∧ ∃ w', wizard_run opened [NextButton; NextButton; BackButton] = Some w'
          ∧ 1 <= step (wiz w') <= 3.
Proof.
  set (w' := exec (handler App.wizard_onClose App.wizard_onComplete BackButton)
               (exec (handler App.wizard_onClose App.wizard_onComplete NextButton)
                  (exec (handler App.wizard_onClose App.wizard_onComplete
                           NextButton) opened))).
  destruct (wizard_navigation empty_amount scenario opened w'
              [NextButton; NextButton; BackButton] eq_refl eq_refl)
    as (_ & (second & Hnext & Hstep & Hamount & _) & Hthird & Hbound).
  - cbn. lia.
  - reflexivity.
  - split; [exists second; auto|]. split; [exact Hthird|].
    exists w'. split; [reflexivity | exact Hbound].
Defined.

(** ** Data fetching *)

Ltac unfold_app :=
  unfold App.run, App.step_event, App.react, App.commit, App.rankedEffect,
    App.rankedDeps, App.fetchRankedFunds_resume, App.fetchRankedFunds_start,
    App.mount, App.fetchData, App.Promise_all2,
    App.setActiveTab, App.setViewMode, App.setRankedFunds, App.setTopFunds,
    App.setStats, App.setLoading, App.in_flight, App.sent,
    try_catch, try_catch_finally, settle, issue, json, throw, set_app;
  unfold_eff.

(** C3 (the code departs from it). When the top-of-week request is rejected
    while the statistics request succeeds, [fetchData] applies neither: the
    statistics stay as they were (null at start-up); and the other way
    round for the list. A top-of-week body that does not decode blocks the
    statistics in the same way. The two results are applied independently
    only when both promises resolve: a non-success status of one leaves the
    other applied. *)
Theorem fetchData_rejection_blocks_other
    (w : World) (funds : list Fund) (s : Stats) :
  stats (app (exec (App.fetchData Rejected (success s)) App.boot)) = None
  ∧ stats (app (exec (App.fetchData Rejected (success s)) w)) = stats (app w)
  ∧ topFunds (app (exec (App.fetchData (success funds) Rejected) w))
    = topFunds (app w)
  ∧ stats (app (exec (App.fetchData
                        (Resolved {| ok := true; json_value := None |})
                        (success s)) w))
    = stats (app w)
  ∧ stats (app (exec (App.fetchData server_error (success s)) w)) = Some s
  ∧ topFunds (app (exec (App.fetchData (success funds) server_error) w))
    = funds.
Proof.
  repeat split.
Qed.












(** * Further properties *)

(** ** Fund cards *)

Ltac card_cases rank f :=
  unfold FundCard; cbn [content]; unfold rankSpan, when;
  destruct rank as [r|]; [destruct (r =? 0)|];
  destruct (priority f), (confidence f).

(** X1. The detail block of a fund card is drawn exactly when the view mode
    is advanced or the card is expanded, and it is then the block of that
    fund; the "more/less details" toggle is drawn exactly in simple mode and
    shows the card's expansion state. *)
Theorem FundCard_details_by_mode
    (rank : option Z) (viewMode : ViewMode) (expanded : bool) (f : Fund) :
  (∀ ds, Details ds ∈ content (FundCard rank viewMode expanded f)
         ↔ ds = details f ∧ (viewMode = advanced ∨ expanded = true))
  ∧ (∀ b, DetailsToggle b ∈ content (FundCard rank viewMode expanded f)
          ↔ b = expanded ∧ viewMode = simple).
Proof.
  split; intros x; card_cases rank f; destruct viewMode, expanded; cbn;
    repeat (progress rewrite ?elem_of_app, ?elem_of_cons, ?elem_of_nil);
    intuition (simplify_eq; auto).
Qed.

(** X2. A known confidence is shown on the card in every state: as a line
    of its own exactly in simple mode, and as a bar inside the detail block
    whenever that block is drawn; so a card that is expanded in simple mode
    shows it twice. A null confidence is shown nowhere. *)
Theorem FundCard_confidence_placement
    (rank : option Z) (viewMode : ViewMode) (expanded : bool) (f : Fund)
    (c : number) :
  (ConfidenceLine c ∈ content (FundCard rank viewMode expanded f)
   ↔ confidence f = Some c ∧ viewMode = simple)
  ∧ (ConfidenceBar c ∈ details f ↔ confidence f = Some c)
  ∧ (confidence f = Some c → viewMode = simple → expanded = true →
     ConfidenceLine c ∈ content (FundCard rank viewMode expanded f)
     ∧ Details (details f) ∈ content (FundCard rank viewMode expanded f)
     ∧ ConfidenceBar c ∈ details f).
Proof.
  assert (Hbar : ConfidenceBar c ∈ details f ↔ confidence f = Some c).
  { unfold details, when.
    destruct (metrics f), (confidence f), (reasoning f) as [s|],
             (management_company f) as [m|];
      try destruct (truthy_string (Some s));
      try destruct (truthy_string (Some m));
      repeat (progress rewrite ?elem_of_app, ?elem_of_cons, ?elem_of_nil);
      intuition (simplify_eq; auto). }
  assert (Hline : ConfidenceLine c ∈ content (FundCard rank viewMode expanded f)
                  ↔ confidence f = Some c ∧ viewMode = simple).
  { card_cases rank f; destruct viewMode, expanded; cbn;
      repeat (progress rewrite ?elem_of_app, ?elem_of_cons, ?elem_of_nil);
      intuition (simplify_eq; auto). }
  split; [exact Hline|]. split; [exact Hbar|].
  intros Hc -> ->. split; [apply Hline; auto|]. split; [|apply Hbar, Hc].
  card_cases rank f; cbn;
    repeat (progress rewrite ?elem_of_app, ?elem_of_cons, ?elem_of_nil);
    intuition (simplify_eq; auto).
Qed.

(** A card expanded in simple mode shows the confidence of the sample fund
    both as a line and in the detail block. *)
Lemma FundCard_confidence_placement_witness :
  ConfidenceLine 0%Q ∈ content (FundCard (Some 1) simple true sample_fund)
  ∧ Details (details sample_fund)
    ∈ content (FundCard (Some 1) simple true sample_fund)
  ∧ ConfidenceBar 0%Q ∈ details sample_fund.
Proof.
  exact (proj2 (proj2 (FundCard_confidence_placement
                         (Some 1) simple true sample_fund 0%Q))
               eq_refl eq_refl eq_refl).
Defined.

Lemma render_bar_detail (viewMode : ViewMode) (bar : Bar) :
  is_Some (row_detail (render_bar viewMode false bar))
  ↔ viewMode = advanced ∧ row_body (render_bar viewMode false bar) ≠ BarNA.
Proof.
  unfold render_bar; cbn.
  destruct (bar_value bar), viewMode; cbn; split;
    try (intros H; destruct (is_Some_None H));
    try (intros [H1 H2]; congruence);
    intros _; try (eexists; reflexivity); split; congruence.
Qed.

(** X3. The card never passes its expansion state to the sub-score profile:
    a bar row carries its explanatory line exactly when the view mode is
    advanced and the sub-score is known, so in simple mode no row has one,
    expanded or not. *)
Theorem FundCard_profile_details
    (rank : option Z) (viewMode : ViewMode) (expanded : bool) (f : Fund)
    (rows : list BarRow) :
  Profile (ProfileBars rows) ∈ content (FundCard rank viewMode expanded f) →
  Forall (fun row => is_Some (row_detail row)
                     ↔ viewMode = advanced ∧ row_body row ≠ BarNA) rows.
Proof.
  intros Hin.
  assert (Hpv : ProfileBars rows
                = BrainProfile viewMode (quality_score f) (valuation_score f)
                               (stability_score f) false).
  { revert Hin. card_cases rank f; destruct viewMode, expanded; cbn;
      repeat (progress rewrite ?elem_of_app, ?elem_of_cons, ?elem_of_nil);
      intuition (simplify_eq; auto). }
  unfold BrainProfile in Hpv.
  destruct (is_null (quality_score f) && is_null (valuation_score f)
            && is_null (stability_score f)); [discriminate|].
  injection Hpv as ->. unfold bars. cbn [map].
  do 3 (apply List.Forall_cons; [apply render_bar_detail|]).
  apply List.Forall_nil.
Qed.

(** The rows of the sample fund's card, expanded in simple mode, carry no
    explanatory line. *)
Lemma FundCard_profile_details_witness :
  Forall (fun row => row_detail row = None)
    [ render_bar simple false
        {| bar_label := "Gestion"; bar_value := Some 150%Q;
           bar_detail := "Sharpe, Sortino, frais" |};
      render_bar simple false
        {| bar_label := "Valo"; bar_value := None;
           bar_detail := "PE vs benchmark" |};
      render_bar simple false
        {| bar_label := "Stabilite"; bar_value := Some (-5)%Q;
           bar_detail := "Max drawdown" |} ].
Proof.
  eapply Forall_impl.
  - apply (FundCard_profile_details (Some 1) simple true sample_fund).
    cbn. solve_elem_of.
  - cbn. intros row [H _]. destruct (row_detail row) as [d|]; [|reflexivity].
    destruct H as [E _]; [eexists; reflexivity | discriminate E].
Defined.

(** X4. Going from simple to advanced mode never loses performance fields:
    when the strip shows its two slots in simple mode, it shows five slots
    in advanced mode and the two simple slots are among them, unchanged and
    in the same order; and a strip that shows slots always has a value in
    at least one of them. *)
Theorem PerformanceStrip_simple_within_advanced
    (metrics : option FundMetrics) (slots : list PerfSlot) :
  PerformanceStrip simple metrics = PerfSlots slots →
  length slots = 2%nat
  ∧ (∃ l v, SlotValue l v ∈ slots)
  ∧ ∃ slots', PerformanceStrip advanced metrics = PerfSlots slots'
              ∧ length slots' = 5%nat
              ∧ sublist slots slots'.
Proof.
  destruct metrics as [m|]; [|discriminate].
  unfold PerformanceStrip, perf_items, render_slot, when; cbn.
  destruct (perf_1m m) as [a|] eqn:Ha, (perf_1y m) as [b|] eqn:Hb; cbn;
    try discriminate; intros [= <-];
    (split; [reflexivity|]);
    (split; [eexists _, _; solve_elem_of|]);
    destruct (perf_1w m), (perf_3y m); cbn;
    eexists; (split; [reflexivity|]); (split; [reflexivity|]);
    apply sublist_cons; do 2 apply sublist_skip; apply sublist_nil_l.
Qed.

(** The strip of a fund known by its 1-month return only. *)
Lemma PerformanceStrip_simple_within_advanced_witness :
  ∃ slots', PerformanceStrip advanced
              (Some {| perf_1w := None; perf_1m := Some 2%Q; perf_3m := None;
                       perf_1y := None; perf_3y := None; vol_60d := None;
                       sharpe_ratio := None; sortino_ratio := None;
                       max_drawdown := None |}) = PerfSlots slots'
            ∧ sublist [SlotValue "1M" 2%Q; SlotNA "1A"] slots'.
Proof.
  destruct (PerformanceStrip_simple_within_advanced
              (Some {| perf_1w := None; perf_1m := Some 2%Q; perf_3m := None;
                       perf_1y := None; perf_3y := None; vol_60d := None;
                       sharpe_ratio := None; sortino_ratio := None;
                       max_drawdown := None |})
              [SlotValue "1M" 2%Q; SlotNA "1A"] eq_refl)
    as (_ & _ & slots' & Hadv & _ & Hsub).
  exists slots'. auto.
Defined.

Lemma rank_of_position (i : nat) : (Z.of_nat i + 1 =? 0) = false.
Proof. apply Z.eqb_neq. lia. Qed.

Lemma tier_of_position (i : nat) :
  tier_of_styles (cardClass (Some (Z.of_nat i + 1)))
  = match i with
    | 0%nat => gold
    | 1%nat => silver
    | 2%nat => bronze
    | _ => none
    end.
Proof.
  destruct i as [|[|[|i]]]; try reflexivity.
  apply tier_of_plain_card; intros [= H]; lia.
Qed.

(** X5. The client does not re-sort: a fund grid has one card per fund, in
    the order of the list, the card at position [i] showing the name and
    ISIN of the fund at position [i] under the rank [i + 1]; the first three
    cards are highlighted gold, silver and bronze and no other card is,
    whatever the scores, the view mode and the expansion states. *)
Theorem FundGrid_keeps_order
    (viewMode : ViewMode) (expanded : string → bool) (funds : list Fund)
    (i : nat) (f : Fund) :
  funds !! i = Some f →
  length (FundGrid viewMode expanded funds) = length funds
  ∧ ∃ card classes rest,
      FundGrid viewMode expanded funds !! i = Some card
      ∧ content card
        = RankSpan (Z.of_nat i + 1) classes :: NameText (name f)
            :: IsinText (isin f) :: rest
      ∧ card_tier card = match i with
                         | 0%nat => gold
                         | 1%nat => silver
                         | 2%nat => bronze
                         | _ => none
                         end.
Proof.
  intros Hf. unfold FundGrid. split; [apply length_imap|].
  eexists _, _, _. rewrite list_lookup_imap, Hf. cbn [fmap option_fmap option_map].
  split; [reflexivity|]. split.
  - unfold FundCard; cbn [content]. unfold rankSpan.
    rewrite rank_of_position. reflexivity.
  - apply tier_of_position.
Qed.

(** A grid of five copies of the sample fund: the fourth card has rank 4
    and no highlight. *)
Lemma FundGrid_keeps_order_witness :
  ∃ card classes rest,
    FundGrid advanced (fun _ => false) (replicate 5 sample_fund) !! 3%nat
    = Some card
    ∧ content card
      = RankSpan 4 classes :: NameText "Fonds A" :: IsinText "FR0000000001"
          :: rest
    ∧ card_tier card = none.
Proof.
  exact (proj2 (FundGrid_keeps_order advanced (fun _ => false)
                  (replicate 5 sample_fund) 3 sample_fund eq_refl)).
Defined.




(** ** Application state and fetching *)

(** X7. Switching the view mode sends no request and touches no data: the
    lists, the statistics, the dialogs, the active tab, the wizard and the
    outstanding requests are as before, only the view mode is the one
    chosen; the ranked list is not re-fetched even when it is empty and its
    tab is active. Choosing the same mode twice is choosing it once. *)
Theorem view_mode_change_is_local (w : World) (mode : ViewMode) :
  let w' := App.step_event w (App.ViewModeChange mode) in
  viewMode (app w') = mode
  ∧ requests w' = requests w
  ∧ pending w' = pending w
  ∧ wiz w' = wiz w
  ∧ (topFunds (app w'), rankedFunds (app w'), stats (app w'), loading (app w'))
    = (topFunds (app w), rankedFunds (app w), stats (app w), loading (app w))
  ∧ (activeTab (app w'), wizardOpen (app w'), portfolio (app w'),
     mobileMenuOpen (app w'))
    = (activeTab (app w), wizardOpen (app w), portfolio (app w),
       mobileMenuOpen (app w))
  ∧ App.step_event w' (App.ViewModeChange mode) = w'.
Proof.
  unfold_app. rewrite !bool_decide_eq_true_2 by reflexivity. cbn.
  repeat split.
Qed.

Lemma fetchData_frame (w : World) (topAnswer : FetchResult (list Fund))
    (statsAnswer : FetchResult Stats) :
  let w' := exec (App.fetchData topAnswer statsAnswer) w in
  loading (app w') = false
  ∧ requests w' = requests w ++ [App.topWeekRequest; App.statsRequest]
  ∧ wiz w' = wiz w
  ∧ (rankedFunds (app w'), activeTab (app w'), viewMode (app w'))
    = (rankedFunds (app w), activeTab (app w), viewMode (app w))
  ∧ (wizardOpen (app w'), portfolio (app w'), mobileMenuOpen (app w'))
    = (wizardOpen (app w), portfolio (app w), mobileMenuOpen (app w)).
Proof.
  destruct topAnswer as [|[[|] [?|]]], statsAnswer as [|[[|] [?|]]];
    unfold_app; rewrite <- app_assoc; repeat split.
Qed.

(** X8. However the two start-up fetches settle (rejection, error status,
    undecodable body or success) [fetchData] sends exactly the two requests,
    ends with [loading] false, so that the top-week tab shows the fund grid
    of the list it holds and never stays on its six placeholders, and
    leaves the ranked list, the active tab, the view mode, the dialogs and
    the wizard alone. *)
Theorem fetchData_always_finishes
    (w : World) (topAnswer : FetchResult (list Fund))
    (statsAnswer : FetchResult Stats) (expanded : string → bool) :
  let w' := exec (App.fetchData topAnswer statsAnswer) w in
  loading (app w') = false
  ∧ topWeekTab expanded (app w')
    = Grid (FundGrid (viewMode (app w)) expanded (topFunds (app w')))
  ∧ requests w' = requests w ++ [App.topWeekRequest; App.statsRequest]
  ∧ wiz w' = wiz w
  ∧ (rankedFunds (app w'), activeTab (app w'), viewMode (app w'))
    = (rankedFunds (app w), activeTab (app w), viewMode (app w))
  ∧ (wizardOpen (app w'), portfolio (app w'), mobileMenuOpen (app w'))
    = (wizardOpen (app w), portfolio (app w), mobileMenuOpen (app w)).
Proof.
  intros w'.
  destruct (fetchData_frame w topAnswer statsAnswer)
    as (Hload & Hreq & Hwiz & Hdata & Hdialogs).
  fold w' in Hload, Hreq, Hwiz, Hdata, Hdialogs.
  split; [exact Hload|]. split; [|auto].
  unfold topWeekTab. rewrite Hload.
  injection Hdata as _ _ ->. reflexivity.
Qed.

(** X9. What [fetchData] applies. The top-of-week list is replaced by the
    delivered list exactly when neither promise rejects and the list is
    delivered (status ok, body decodes), whatever the status and body of the
    statistics response; otherwise it is kept. The statistics are replaced
    exactly when neither promise rejects, they are delivered, and the
    top-of-week response is not an ok response with an undecodable body;
    otherwise they are kept. *)
Theorem fetchData_applies
    (w : World) (topAnswer : FetchResult (list Fund))
    (statsAnswer : FetchResult Stats) :
  let w' := exec (App.fetchData topAnswer statsAnswer) w in
  topFunds (app w')
  = (if resolved topAnswer && resolved statsAnswer
     then default (topFunds (app w)) (delivered topAnswer)
     else topFunds (app w))
  ∧ stats (app w')
    = (if resolved topAnswer && resolved statsAnswer
          && negb (undecodable topAnswer)
       then match delivered statsAnswer with
            | Some s => Some s
            | None => stats (app w)
            end
       else stats (app w)).
Proof.
  destruct topAnswer as [|[[|] [?|]]], statsAnswer as [|[[|] [?|]]];
    split; reflexivity.
Qed.

(** X10. Settling a fetch of the ranked list while the held list is empty
    never sends a request, whatever the answer: a failure (rejection, error
    status, undecodable body) changes nothing in the application state and
    is not retried, and an empty list in answer does not start the fetch
    again. After a delivered list the held list is that list. *)
Theorem ranked_settle_no_retry
    (w : World) (answer : FetchResult (list Fund)) :
  rankedFunds (app w) = [] →
  let w' := App.step_event w (App.RankedSettled answer) in
  requests w' = requests w
  ∧ wiz w' = wiz w
  ∧ (delivered answer = None → app w' = app w)
  ∧ (App.in_flight (url App.rankedRequest) w ≠ 0%nat →
     rankedFunds (app w') = default [] (delivered answer)).
Proof.
  intros Hl. unfold App.step_event.
  destruct (App.in_flight (url App.rankedRequest) w =? 0)%nat eqn:Hp.
  { apply Nat.eqb_eq in Hp. cbn. rewrite Hl.
    repeat split; auto. intros H; contradiction. }
  destruct answer as [|[[|] [data|]]]; unfold_app; rewrite ?Hl; cbn;
    try (rewrite bool_decide_eq_true_2 by reflexivity; cbn;
         destruct w as [a ? ? ?]; destruct a; cbn in *; subst;
         repeat split; auto; discriminate).
  destruct data as [|f data]; cbn.
  - rewrite bool_decide_eq_true_2 by reflexivity; cbn.
    repeat split; auto; discriminate.
  - rewrite bool_decide_eq_false_2 by (intros [= E]); cbn.
    rewrite andb_false_r. repeat split; auto; discriminate.
Qed.

(** At the mounted application with the ranked tab just activated, a server
    error changes nothing and sends nothing. *)
Lemma ranked_settle_no_retry_witness :
  let w := App.step_event mounted (App.TabChange "ranked") in
  let w' := App.step_event w (App.RankedSettled server_error) in
  requests w' = requests w ∧ app w' = app w.
Proof.
  destruct (ranked_settle_no_retry
              (App.step_event mounted (App.TabChange "ranked"))
              server_error eq_refl)
    as (Hreq & _ & Happ & _).
  split; [exact Hreq | exact (Happ eq_refl)].
Defined.

(** ** Wizard *)

Lemma handleSubmit_splits (onComplete : PortfolioSuggestion → Eff unit)
    (answer : FetchResult PortfolioSuggestion) (w : World) :
  exec (handleSubmit onComplete answer) w
  = exec (handleSubmit_resume onComplete (suggestRequest (wiz w)) answer)
         (exec handleSubmit_start w).
Proof.
  destruct answer as [|[[|] [data|]]]; reflexivity.
Qed.

Lemma wizard_act_requests (c : Control) (w w' : World) :
  wizard_act c w = Some w' →
  requests w' = requests w ++ (if is_submit c then [suggestRequest (wiz w)]
                               else []).
Proof.
  unfold wizard_act, act.
  destruct (rendered (wiz w) c); [|discriminate]. intros [= <-].
  destruct c as [a|h|p|v| | |answer]; cbn [is_submit handler];
    rewrite ?app_nil_r; try reflexivity.
  - unfold onBack. unfold_eff. destruct (step (wiz w) =? 1); reflexivity.
  - apply handleSubmit_exec.
Qed.

Lemma wizard_act_loading (c : Control) (w w' : World) :
  wiz_loading (wiz w) = true → wizard_act c w = Some w' →
  wiz_loading (wiz w') = true ∧ is_submit c = false.
Proof.
  intros Hl. unfold wizard_act, act.
  destruct (rendered (wiz w) c) eqn:Hr; [|discriminate]. intros [= <-].
  destruct c as [a|h|p|v| | |answer]; cbn in Hr |- *; auto.
  - unfold onBack. unfold_eff. destruct (step (wiz w) =? 1); cbn; auto.
  - rewrite Hl, andb_false_r in Hr. discriminate.
Qed.

Lemma wizard_run_loading (cs : list Control) (w w' : World) :
  wiz_loading (wiz w) = true → wizard_run w cs = Some w' →
  wiz_loading (wiz w') = true ∧ requests w' = requests w.
Proof.
  revert w. induction cs as [|c cs IH]; intros w Hl; cbn.
  - intros [= <-]. auto.
  - destruct (wizard_act c w) as [w1|] eqn:Hact; [|discriminate].
    destruct (wizard_act_loading c w w1 Hl Hact) as [Hl1 Hc].
    pose proof (wizard_act_requests c w w1 Hact) as Hreq.
    rewrite Hc, app_nil_r in Hreq.
    intros Hrun. destruct (IH w1 Hl1 Hrun) as [Hl' Hreq'].
    split; [exact Hl'|]. rewrite Hreq', Hreq. reflexivity.
Qed.

Lemma dialog_run_uses (cs : list Control) (w w' : World) :
  dialog_run w (map Use cs) = Some w' → wizard_run w cs = Some w'.
Proof.
  revert w. induction cs as [|c cs IH]; intros w; cbn; [auto|].
  destruct (wizardOpen (app w)); [|discriminate].
  destruct (wizard_act c w) as [w1|]; [apply IH | discriminate].
Qed.

(** X11. Within one mounting of the wizard (the dialog staying open) a
    submission that is outstanding cannot be doubled: [handleSubmit] raises
    [loading] and clears the error before the request leaves, the submit
    button is not offered while [loading], and no other control (inputs,
    presets, slider, back, next) sends a request or lowers [loading]. The
    guard does not outlive the mounting: once the dialog is dismissed and
    opened again a fresh wizard is there, the earlier request is still
    outstanding, and on its third step a submit is offered and sends a
    second request. The submit of the model is the start followed by the
    settlement. *)
Theorem submission_in_flight
    (w w' : World) (cs : list Control) :
  let w1 := exec handleSubmit_start w in
  wizardOpen (app w) = true →
  dialog_run w1 (map Use cs) = Some w' →
  wiz_loading (wiz w1) = true
  ∧ error (wiz w1) = None
  ∧ requests w1 = requests w ++ [suggestRequest (wiz w)]
  ∧ pending w1 = pending w ++ [suggestRequest (wiz w)]
  ∧ (∀ answer, dialog_step w1 (Use (SubmitButton answer)) = None)
  ∧ wiz_loading (wiz w') = true
  ∧ requests w' = requests w1
  ∧ (∀ answer,
       exec (handleSubmit App.wizard_onComplete answer) w
       = exec (handleSubmit_resume App.wizard_onComplete
                 (suggestRequest (wiz w)) answer) w1)
  ∧ ∃ w2,
      dialog_run w1 [ DismissDialog; OpenDialog; Use NextButton;
                      Use NextButton ] = Some w2
      ∧ wiz_loading (wiz w2) = false
      ∧ pending w2 = pending w1
      ∧ ∀ answer, ∃ w3,
          dialog_step w2 (Use (SubmitButton answer)) = Some w3
          ∧ requests w3
            = requests w ++ [suggestRequest (wiz w); suggestRequest (wiz w2)].
Proof.
  intros w1 Hopen Hrun.
  assert (Hl : wiz_loading (wiz w1) = true) by reflexivity.
  assert (Ho : wizardOpen (app w1) = true) by exact Hopen.
  split; [exact Hl|]. split; [reflexivity|]. split; [reflexivity|].
  split; [reflexivity|].
  split.
  { intros answer. unfold dialog_step, wizard_act, act, rendered.
    rewrite Ho, Hl, andb_false_r. reflexivity. }
  destruct (wizard_run_loading cs w1 w' Hl (dialog_run_uses cs w1 w' Hrun))
    as [Hl' Hreq].
  split; [exact Hl'|]. split; [exact Hreq|].
  split; [intros answer; apply handleSubmit_splits|].
  eexists. split.
  { cbn [dialog_run]. unfold dialog_step at 1. rewrite Ho.
    reflexivity. }
  split; [reflexivity|]. split; [reflexivity|].
  intros answer. eexists. split; [reflexivity|].
  cbn [handler]. rewrite (proj1 (handleSubmit_exec _ answer)).
  match goal with
  | |- _ = requests w ++ [?a; ?b] =>
      change (requests w ++ [a; b]) with (requests w ++ [a] ++ [b])
  end.
  rewrite app_assoc. reflexivity.
Qed.

(** With the scenario's request on its way, going back and forth sends
    nothing; dismissing the dialog and opening it again brings a wizard
    that is not loading. *)
Lemma submission_in_flight_witness :
  (∃ w', dialog_run (exec handleSubmit_start scenario)
           [Use BackButton; Use NextButton] = Some w'
         ∧ wiz_loading (wiz w') = true
         ∧ requests w' = requests scenario ++ [scenario_request])
  ∧ ∃ w2, dialog_run (exec handleSubmit_start scenario)
            [ DismissDialog; OpenDialog; Use NextButton; Use NextButton ]
          = Some w2
          ∧ wiz_loading (wiz w2) = false
          ∧ pending w2 = [scenario_request].
Proof.
  destruct (submission_in_flight scenario _ [BackButton; NextButton]
              eq_refl eq_refl)
    as (_ & _ & Hsent & _ & _ & Hl & Hreq & _ & w2 & Hrun2 & Hl2 & Hp2 & _).
  split.
  - eexists. split; [reflexivity|].
    split; [exact Hl|]. rewrite Hreq. exact Hsent.
  - exists w2. split; [exact Hrun2|]. split; [exact Hl2 | exact Hp2].
Defined.

(** X12. A failed submission can be retried, and success then wipes the
    failure: on the third step, a submit that fails followed by a submit
    that is answered with a suggestion leaves the wizard [Succeeded] with
    that suggestion and no error message, two identical requests having
    been sent. *)
Theorem failed_submit_then_success
    (w : World) (first second : FetchResult PortfolioSuggestion)
    (data : PortfolioSuggestion) :
  step (wiz w) = 3 → wiz_loading (wiz w) = false →
  delivered first = None → delivered second = Some data →
  ∃ w1 w2,
    wizard_act (SubmitButton first) w = Some w1
    ∧ phase w1 = Failed errorMessage
    ∧ wizard_act (SubmitButton second) w1 = Some w2
    ∧ phase w2 = Succeeded data
    ∧ error (wiz w2) = None
    ∧ requests w2
      = requests w ++ [suggestRequest (wiz w); suggestRequest (wiz w)].
Proof.
  intros Hs Hl H1 H2.
  set (w1 := exec (handleSubmit App.wizard_onComplete first) w).
  set (w2 := exec (handleSubmit App.wizard_onComplete second) w1).
  destruct (handleSubmit_exec w first) as [Hreq1 Hres1].
  rewrite H1 in Hres1. destruct Hres1 as [Hwiz1 Happ1]. fold w1 in Hreq1, Hwiz1.
  destruct (handleSubmit_exec w1 second) as [Hreq2 Hres2].
  rewrite H2 in Hres2. destruct Hres2 as (Hwiz2 & Hp & Ho).
  fold w2 in Hreq2, Hwiz2, Hp, Ho.
  exists w1, w2.
  split; [apply submit_offered; assumption|].
  split; [unfold phase; rewrite Hwiz1; reflexivity|].
  split; [apply submit_offered; rewrite Hwiz1; cbn; auto|].
  split; [unfold phase; rewrite Hwiz2, Hp, Ho; reflexivity|].
  split; [rewrite Hwiz2; reflexivity|].
  rewrite Hreq2, Hreq1, Hwiz1, <- app_assoc. reflexivity.
Qed.

(** At the scenario: a server error, then the sample portfolio. *)
Lemma failed_submit_then_success_witness :
  ∃ w2, wizard_run scenario [ SubmitButton server_error;
                              SubmitButton (success sample_portfolio) ]
        = Some w2
        ∧ phase w2 = Succeeded sample_portfolio.
Proof.
  destruct (failed_submit_then_success scenario server_error
              (success sample_portfolio) sample_portfolio
              eq_refl eq_refl eq_refl eq_refl)
    as (w1 & w2 & H1 & _ & H2 & Hphase & _).
  exists w2. split; [|exact Hphase].
  cbn [wizard_run]. rewrite H1, H2. reflexivity.
Defined.

(** X13. Only the slider and the preset buttons touch the selected preset:
    the slider clears it, a preset button sets it to its own id, and every
    other control (the amount input, the horizon select, back, next and
    submit, whatever its outcome) leaves it as it is. In particular
    choosing another horizon on the second step keeps the preset selected. *)
Theorem selectedPreset_changes (c : Control) (w w' : World) :
  wizard_act c w = Some w' →
  selectedPreset (wiz w')
  = match c with
    | RiskSlider _ => None
    | PresetButton p => Some (id p)
    | _ => selectedPreset (wiz w)
    end.
Proof.
  unfold wizard_act, act.
  destruct (rendered (wiz w) c); [|discriminate]. intros [= <-].
  destruct c as [a|h|p|v| | |answer]; cbn [handler]; try reflexivity.
  - unfold onBack. unfold_eff. destruct (step (wiz w) =? 1); reflexivity.
  - destruct (handleSubmit_exec w answer) as [_ Hres].
    destruct (delivered answer); destruct Hres as [-> _]; reflexivity.
Qed.

(** On the second step, with "dynamique" selected and its long horizon,
    choosing the short horizon keeps "dynamique" selected. *)
Lemma selectedPreset_changes_witness :
  ∃ w', wizard_act (HorizonSelect "short") scenario_step2 = Some w'
        ∧ horizon (wiz w') = "short"
        ∧ selectedPreset (wiz w') = Some "dynamique".
Proof.
  eexists. split; [reflexivity|]. split; [reflexivity|].
  exact (selectedPreset_changes (HorizonSelect "short") scenario_step2 _
           eq_refl).
Defined.

(** X14. Navigation only moves the step. On the first two steps "next"
    followed by "back" gives back the very state the wizard and the
    application were in, and so does "back" followed by "next" on the last
    two steps: what was entered on a step is still there on return. *)
Theorem navigation_round_trip (w v : World) :
  1 <= step (wiz w) <= 2 → 2 <= step (wiz v) <= 3 →
  wizard_run w [NextButton; BackButton] = Some w
  ∧ wizard_run v [BackButton; NextButton] = Some v.
Proof.
  intros Hw Hv. split.
  - cbn [wizard_run]. unfold wizard_act, act, rendered.
    replace (step (wiz w) <? 3) with true by (symmetry; apply Z.ltb_lt; lia).
    cbn [handler]. unfold onNext, onBack. unfold_eff.
    replace (step (wiz w) + 1 =? 1) with false
      by (symmetry; apply Z.eqb_neq; lia).
    cbn. f_equal. destruct w as [a s r p]; destruct s; cbn in *.
    do 2 f_equal. lia.
  - cbn [wizard_run]. unfold wizard_act, act, rendered.
    cbn [handler]. unfold onNext, onBack. unfold_eff.
    replace (step (wiz v) =? 1) with false
      by (symmetry; apply Z.eqb_neq; lia).
    cbn.
    replace (step (wiz v) - 1 <? 3) with true
      by (symmetry; apply Z.ltb_lt; lia).
    cbn. f_equal. destruct v as [a s r p]; destruct s; cbn in *.
    do 2 f_equal. lia.
Qed.

(** From the second step of the scenario, either way round. *)
Lemma navigation_round_trip_witness :
  wizard_run scenario_step2 [NextButton; BackButton] = Some scenario_step2
  ∧ wizard_run scenario_step2 [BackButton; NextButton] = Some scenario_step2.
Proof.
  apply (navigation_round_trip scenario_step2 scenario_step2); cbn; lia.
Defined.

(** X15. The three presets are told apart by their ids and stay within the
    controls they drive: after choosing a preset of the list, the
    description block shows the description of that very preset, the target
    risk it set lies in the slider's range 1..7 and its horizon is one the
    select offers; once the slider is moved the block is gone. *)
Theorem preset_description_shown (w : World) (p : Preset) (v : list Z) :
  p ∈ presets →
  let w1 := exec (handlePresetSelect p) w in
  presetDescription (wiz w1) = Some (Some (preset_description p))
  ∧ targetSri (wiz w1) = [preset_sri p]
  ∧ 1 <= preset_sri p <= 7
  ∧ horizon (wiz w1) ∈ horizonOptions
  ∧ presetDescription (wiz (exec (onValueChange v) w1)) = None.
Proof.
  unfold presets. rewrite !elem_of_cons, elem_of_nil.
  intros [->|[->|[->|[]]]]; cbn;
    (split; [reflexivity|]); (split; [reflexivity|]); (split; [lia|]);
    (split; [unfold horizonOptions; solve_elem_of | reflexivity]).
Qed.

(** The preset "prudent" at the scenario. *)
Lemma preset_description_shown_witness :
  presetDescription (wiz (exec (handlePresetSelect prudent) scenario))
  = Some (Some "On privilegie les fonds stables, drawdown limite, peu de volatilite.").
Proof.
  refine (proj1 (preset_description_shown scenario prudent [3] _)).
  unfold presets. solve_elem_of.
Defined.

(** X16. The wizard talks to the network through its submit button only,
    one request per submit: along any sequence of actions the requests sent
    are as many as the submits in it, each a POST to the suggestion
    endpoint, and the requests sent earlier are kept in order. *)
Theorem wizard_requests_only_on_submit
    (cs : list Control) (w w' : World) :
  wizard_run w cs = Some w' →
  ∃ new, requests w' = requests w ++ new
         ∧ length new = length (filter (fun c => is_submit c = true) cs)
         ∧ Forall (fun r => url r = "/api/portfolio/suggest"
                            ∧ method r = "POST") new.
Proof.
  revert w. induction cs as [|c cs IH]; intros w; cbn [wizard_run].
  - intros [= <-]. exists []. rewrite app_nil_r. repeat split. constructor.
  - destruct (wizard_act c w) as [w1|] eqn:Hact; [|discriminate].
    intros Hrun. destruct (IH w1 Hrun) as (new & Hreq & Hlen & Hall).
    pose proof (wizard_act_requests c w w1 Hact) as Hstep.
    rewrite filter_cons.
    destruct (is_submit c) eqn:Hc.
    + exists (suggestRequest (wiz w) :: new).
      rewrite Hreq, Hstep, <- app_assoc.
      split; [reflexivity|].
      destruct (decide (true = true)) as [_|E]; [|contradiction].
      split; [cbn; rewrite Hlen; reflexivity|].
      constructor; [split; reflexivity | exact Hall].
    + exists new. rewrite Hreq, Hstep, app_nil_r.
      split; [reflexivity|].
      destruct (decide (false = true)) as [E|_]; [discriminate|].
      split; [exact Hlen | exact Hall].
Qed.

(** Filling the wizard from its opening to the scenario sends nothing; the
    failed submit and its retry send two requests. *)
Lemma wizard_requests_only_on_submit_witness :
  ∃ w' new,
    wizard_run opened [ AmountInput "50000"; NextButton; NextButton;
                        PresetButton dynamique; SubmitButton server_error;
                        SubmitButton Rejected ] = Some w'
    ∧ requests w' = requests opened ++ new
    ∧ length new = 2%nat.
Proof.
  eexists.
  destruct (wizard_requests_only_on_submit
              [ AmountInput "50000"; NextButton; NextButton;
                PresetButton dynamique; SubmitButton server_error;
                SubmitButton Rejected ] opened _ eq_refl)
    as (new & Hreq & Hlen & _).
  exists new. split; [reflexivity|]. split; [exact Hreq | exact Hlen].
Defined.

(** ** The amount sent and the statistics bars *)

Lemma digit_not_white_space (c : ascii) :
  is_digit c = true → is_white_space c = false.
Proof.
  unfold is_digit, is_white_space. cbv zeta.
  intros H. apply andb_true_iff in H as [H1 H2].
  apply Nat.leb_le in H1. apply Nat.leb_le in H2.
  apply orb_false_iff. split.
  - apply andb_false_iff. right. apply Nat.leb_gt. lia.
  - apply Nat.eqb_neq. lia.
Qed.

Lemma digit_not_sign (c : ascii) (r : list ascii) :
  is_digit c = true → read_sign (c :: r) = (false, c :: r).
Proof.
  destruct c as [[] [] [] [] [] [] [] []]; intros H;
    first [reflexivity | discriminate H].
Qed.

Lemma digit_not_Infinity (c : ascii) (r : list ascii) :
  is_digit c = true →
  starts_with (String.list_ascii_of_string "Infinity") (c :: r) = false.
Proof.
  destruct c as [[] [] [] [] [] [] [] []]; intros H;
    first [reflexivity | discriminate H].
Qed.

Lemma span_all_digits (ds : list ascii) :
  forallb is_digit ds = true → span_digits ds = (ds, []).
Proof.
  induction ds as [|c ds IH]; [reflexivity|].
  cbn. intros H. apply andb_true_iff in H as [Hc Hds].
  rewrite Hc, (IH Hds). reflexivity.
Qed.

Lemma digits_value_nonneg (ds : list ascii) (acc : Z) :
  forallb is_digit ds = true → 0 <= acc →
  0 <= fold_left (fun a c => 10 * a + digit_value c) ds acc.
Proof.
  revert acc. induction ds as [|c ds IH]; intros acc H Hacc; [exact Hacc|].
  cbn in H |- *. apply andb_true_iff in H as [Hc Hds].
  apply IH; [exact Hds|].
  unfold is_digit in Hc. cbv zeta in Hc.
  apply andb_true_iff in Hc as [H1 _]. apply Nat.leb_le in H1.
  unfold digit_value. lia.
Qed.

(** X17. An amount typed as a plain run of decimal digits whose value is
    at most 2^53 (every such integer is a binary64 number, so that no
    rounding takes place) is sent as the number those digits denote:
    [parseFloat] reads the whole string, the value is the decimal one and
    is not negative, and the request body carries it as [amount] (never
    [null]). *)
Theorem amount_of_digits (s : WizardState) (ds : list ascii) :
  ds ≠ [] → forallb is_digit ds = true →
  digits_value ds <= 2 ^ 53 →
  amount s = String.string_of_list_ascii ds →
  parseFloat (amount s) = Finite (inject_Z (digits_value ds))
  ∧ 0 <= digits_value ds <= 2 ^ 53
  ∧ body_amount <$> body (suggestRequest s)
    = Some (Some (inject_Z (digits_value ds))).
Proof.
  intros Hne Hds Hexact Ha.
  assert (Hparse : parseFloat (amount s)
                   = Finite (inject_Z (digits_value ds))).
  { rewrite Ha. unfold parseFloat.
    rewrite String.list_ascii_of_string_of_list_ascii.
    destruct ds as [|c ds']; [contradiction|].
    pose proof Hds as Hc. cbn in Hc. apply andb_true_iff in Hc as [Hc _].
    cbn [skip_white_space]. rewrite (digit_not_white_space c Hc).
    rewrite (digit_not_sign c ds' Hc), (digit_not_Infinity c ds' Hc).
    rewrite (span_all_digits (c :: ds') Hds).
    cbn [length read_exponent]. rewrite app_nil_r.
    unfold scale10. cbn [Z.of_nat Z.sub Z.opp Z.add Z.leb Z.compare].
    rewrite Z.pow_0_r, Z.mul_1_r. reflexivity. }
  split; [exact Hparse|].
  split; [split; [apply digits_value_nonneg; [exact Hds | lia] | exact Hexact]|].
  unfold suggestRequest; cbn. rewrite Hparse. reflexivity.
Qed.

(** The largest amount covered, 2^53 = 9007199254740992. *)
Lemma amount_of_digits_witness :
  parseFloat "9007199254740992" = Finite 9007199254740992%Q
  ∧ body_amount
      <$> body (suggestRequest
                  {| step := 3; amount := "9007199254740992";
                     horizon := "long"; targetSri := [6];
                     wiz_loading := false; error := None;
                     selectedPreset := None |})
    = Some (Some 9007199254740992%Q).
Proof.
  destruct (amount_of_digits
              {| step := 3; amount := "9007199254740992";
                 horizon := "long"; targetSri := [6];
                 wiz_loading := false; error := None;
                 selectedPreset := None |}
              (String.list_ascii_of_string "9007199254740992"))
    as (Hparse & _ & Hbody).
  - discriminate.
  - reflexivity.
  - vm_compute. discriminate.
  - reflexivity.
  - split; [exact Hparse | exact Hbody].
Defined.

(** X18. A bar of the SRI distribution is never lower than 4 pixels, and
    when the statistics are consistent (a count between 0 and a positive
    total) never higher than 200; the class holding every fund gets the
    full 200. *)
Theorem sriBarHeight_bounds (count total : number) :
  (0 < total)%Q → (0 <= count)%Q → (count <= total)%Q →
  (4 <= sriBarHeight count total)%Q
  ∧ (sriBarHeight count total <= 200)%Q
  ∧ (sriBarHeight total total == 200)%Q.
Proof.
  intros Htotal Hcount Hle. unfold sriBarHeight, Math_max.
  assert (Hratio : (count / total <= 1)%Q).
  { apply Qle_shift_div_r; [exact Htotal|]. rewrite Qmult_1_l. exact Hle. }
  split; [apply Q.le_max_l|]. split.
  - apply Q.max_lub; [discriminate|].
    change 200%Q with (1 * 200)%Q at 2.
    apply Qmult_le_compat_r; [exact Hratio | discriminate].
  - assert (Hone : (total / total == 1)%Q).
    { apply Qmult_inv_r. intros E. rewrite E in Htotal.
      apply (Qlt_irrefl 0), Htotal. }
    rewrite Hone. reflexivity.
Qed.

(** The sample statistics: 120 funds, all of SRI 3. *)
Lemma sriBarHeight_bounds_witness :
  (4 <= sriBarHeight 120 (total_funds sample_stats))%Q
  ∧ (sriBarHeight 120 (total_funds sample_stats) <= 200)%Q.
Proof.
  destruct (sriBarHeight_bounds 120%Q (total_funds sample_stats))
    as (Hlo & Hhi & _); try (cbn; discriminate).
  - reflexivity.
  - split; [exact Hlo | exact Hhi].
Defined.
